(** * REST CRUD gateway over a relational database

    A shallow embedding of the two Flask applications of the repository,
    [REST_APIs_mssql.py] and [REST_APIs_mysql.py], and the properties of
    their request handlers.

    The Python objects the handlers see are modelled as follows.
    - The value returned by [request.get_json()] is a [json] value.
    - A Python computation that may raise is a [result]; a computation that
      also touches the SQLAlchemy [MetaData] registry, a connection or the
      session runs in the state monad [M] over [State].
    - The database and the SQLAlchemy engine are external: every call into
      them is an oracle of the record [Backend], which answers with a value
      or with an exception.  Theorems quantify over all backends. *)

From Stdlib Require Import String ZArith QArith.QArith_base.
From stdpp Require Import base option list strings gmap.

Set Warnings "-register-all".

Local Open Scope string_scope.
Local Open Scope list_scope.
Local Open Scope Z_scope.

(** ** JSON values, as produced by [request.get_json()] *)

Inductive json :=
| JNull
| JBool (b : bool)
| JInt (z : Z)
| JFloat (q : Q)
| JStr (s : string)
| JArr (items : list json)
| JObj (fields : list (string * json)).

(** A value of a fetched row: one that Flask's JSON provider can serialize,
    given as the JSON value it becomes, or one it cannot serialize (bytes, a
    time of day, ...), given by the name of its type. *)
Inductive cell :=
| Json (v : json)
| Opaque (type_name : string).

Coercion Json : json >-> cell.

(** Python truth value of a parsed JSON value: [None], [False], [0], [0.0],
    the empty string, the empty list and the empty dict are false. *)
Definition truthy (v : json) : bool :=
  match v with
  | JNull => false
  | JBool b => b
  | JInt z => negb (z =? 0)
  | JFloat q => negb (Qnum q =? 0)
  | JStr s => negb (String.eqb s "")
  | JArr items => match items with [] => false | _ => true end
  | JObj fields => match fields with [] => false | _ => true end
  end.

(** ** Messages and exceptions *)

(** An f-string before rendering: literal text and interpolated values. *)
Inductive fragment :=
| Lit (s : string)
| Interp (v : json).

Definition fstring := list fragment.

(** [ValueError] stands for the class and its subclasses, the only ones the
    MySQL handlers tell apart; [Exception] is any other exception class. *)
Inductive exn :=
| ValueError (msg : fstring)
| Exception (cls : string) (msg : fstring).

(** [str(e)] *)
Definition str_exn (e : exn) : fstring :=
  match e with
  | ValueError msg => msg
  | Exception _ msg => msg
  end.

Inductive result (A : Type) :=
| Ok (a : A)
| Raise (e : exn).
Arguments Ok {A} a.
Arguments Raise {A} e.

Definition rbind {A B} (r : result A) (k : A → result B) : result B :=
  match r with
  | Ok a => k a
  | Raise e => Raise e
  end.

(** [try: body except Exception as e: handler(e)] *)
Definition try_except {A} (body : result A) (handler : exn → result A) : result A :=
  match body with
  | Ok a => Ok a
  | Raise e => handler e
  end.

Definition is_Ok {A} (r : result A) : bool :=
  match r with Ok _ => true | Raise _ => false end.

(** ** Python operations on the request body *)

(** [d[k] = v] on a dict kept in insertion order. *)
Fixpoint dict_set {V} (k : string) (v : V) (d : list (string * V)) : list (string * V) :=
  match d with
  | [] => [(k, v)]
  | (k', v') :: rest =>
      if String.eqb k' k then (k', v) :: rest else (k', v') :: dict_set k v rest
  end.

(** [dict(pairs)] *)
Definition py_dict {V} (pairs : list (string * V)) : list (string * V) :=
  fold_left (λ d kv, dict_set kv.1 kv.2 d) pairs [].

Fixpoint dict_lookup {V} (k : string) (d : list (string * V)) : option V :=
  match d with
  | [] => None
  | (k', v) :: rest => if String.eqb k' k then Some v else dict_lookup k rest
  end.

(** [d.get(k)]: the value, or [None]. *)
Definition dict_get (k : string) (d : list (string * json)) : json :=
  default JNull (dict_lookup k d).

(** [x == key] for a string [key]: only an equal string compares equal. *)
Definition eq_str (key : string) (x : json) : bool :=
  match x with
  | JStr s => String.eqb s key
  | _ => false
  end.

(** [key in s] on strings: substring test. *)
Definition str_contains (key s : string) : bool :=
  match String.index 0 key s with
  | Some _ => true
  | None => false
  end.

(** [key in container] for a string [key]. *)
Definition py_in (key : string) (container : json) : result bool :=
  match container with
  | JObj fields => Ok (bool_decide (is_Some (dict_lookup key fields)))
  | JArr items => Ok (existsb (eq_str key) items)
  | JStr s => Ok (str_contains key s)
  | _ => Raise (Exception "TypeError" [Lit "argument is not iterable"])
  end.

(** [container[key]] for a string [key]. *)
Definition py_getitem (key : string) (container : json) : result json :=
  match container with
  | JObj fields =>
      match dict_lookup key fields with
      | Some v => Ok v
      | None => Raise (Exception "KeyError" [Lit key])
      end
  | JArr _ => Raise (Exception "TypeError" [Lit "list indices must be integers or slices, not str"])
  | JStr _ => Raise (Exception "TypeError" [Lit "string indices must be integers"])
  | _ => Raise (Exception "TypeError" [Lit "object is not subscriptable"])
  end.

(** [container.get(key)]: only a dict has the method. *)
Definition py_get (key : string) (container : json) : result json :=
  match container with
  | JObj fields => Ok (dict_get key fields)
  | _ => Raise (Exception "AttributeError" [Lit "object has no attribute 'get'"])
  end.

(** [name in names] and [name == table_name] against introspected names. *)
Definition name_in (table_name : json) (names : list string) : bool :=
  existsb (λ t, eq_str t table_name) names.

(** [not schema_name] for a value that is [None] or a string. *)
Definition str_truthy (o : option string) : bool :=
  match o with
  | Some s => negb (String.eqb s "")
  | None => false
  end.

(** ** SQLAlchemy objects *)

(** A reflected [Table] object. *)
Record Table := mkTable {
  t_name : string;
  t_schema : string;
  t_columns : list string;
  t_primary_key : list string
}.

(** Statements, each built on a [Table] object. *)
Inductive Statement :=
| Select (t : Table)
| Insert (t : Table) (values : json)
| Update (t : Table) (pk_column : string) (pk : json) (values : json)
| Delete (t : Table) (pk_column : string) (pk : json).

(** What the handlers do to connections and to the session, in order. *)
Inductive event :=
| EvConnect
| EvExecute (s : Statement)
| EvCommit
| EvClose
| EvSessionExecute (s : Statement)
| EvSessionCommit.

(** The engine, the inspector and the database behind them. *)
Record Backend := mkBackend {
  (* inspect(engine) *)
  inspect_engine : result unit;
  (* inspector.get_schema_names() *)
  get_schema_names : result (list string);
  (* inspector.get_table_names(schema=schema) *)
  get_table_names : string → result (list string);
  (* inspector.get_pk_constraint(table, schema=schema)['constrained_columns'] *)
  get_pk_constraint : string → string → result (list string);
  (* reflection of one table: its columns and primary key columns *)
  reflect_table : string → string → result (list string * list string);
  (* MetaData.reflect(bind=engine): the tables loaded at start-up, by key *)
  reflect_all : result (list (string * Table));
  (* engine.connect() *)
  connect : result unit;
  (* execution of a select: result.keys() and result.fetchall() *)
  execute_select : Statement → result (list string * list (list cell));
  (* execution of an insert, update or delete: result.rowcount *)
  execute_dml : Statement → result Z;
  (* commit() *)
  commit : result unit
}.

(** The application state that outlives a request: the [MetaData]
    registry held in [self.metadata] (MSSQL only), and the trace of
    connection and session events. *)
Record State := mkState {
  metadata : gmap string Table;
  log : list event
}.

(** ** The monad of handlers *)

Definition M (A : Type) : Type := State → result A * State.

Definition ret {A} (a : A) : M A := λ s, (Ok a, s).

Definition bind {A B} (m : M A) (k : A → M B) : M B :=
  λ s, match m s with
       | (Ok a, s') => k a s'
       | (Raise e, s') => (Raise e, s')
       end.

Definition raise {A} (e : exn) : M A := λ s, (Raise e, s).

Definition lift {A} (r : result A) : M A := λ s, (r, s).

(** [try: body except Exception as e: handler(e)]; the effects of [body]
    up to the exception stay. *)
Definition try_catch {A} (body : M A) (handler : exn → M A) : M A :=
  λ s, match body s with
       | (Ok a, s') => (Ok a, s')
       | (Raise e, s') => handler e s'
       end.

Definition emit (ev : event) : M unit :=
  λ s, (Ok tt, mkState (metadata s) (log s ++ [ev])).

Declare Scope py_scope.
Delimit Scope py_scope with py.
Notation "'let*' x ':=' m 'in' k" := (bind m (λ x, k))
  (at level 100, x pattern, m at next level, k at level 200, right associativity) : py_scope.
Notation "m ';;;' k" := (bind m (λ _, k))
  (at level 100, k at level 200, right associativity) : py_scope.
Local Open Scope py_scope.

(** Connections opened and not closed in a trace. *)
Fixpoint open_connections (l : list event) : Z :=
  match l with
  | [] => 0
  | EvConnect :: rest => 1 + open_connections rest
  | EvClose :: rest => open_connections rest - 1
  | _ :: rest => open_connections rest
  end.

(** Statements executed in a trace. *)
Definition is_execution (ev : event) : bool :=
  match ev with
  | EvExecute _ | EvSessionExecute _ => true
  | _ => false
  end.

Definition executed (l : list event) : list event := List.filter is_execution l.

(** ** Responses *)

(** A value of a response dict: a text, or a list of names. *)
Inductive field :=
| Text (f : fstring)
| Names (l : list string).

(** A JSON response body: a dict, or a list of row dicts. *)
Inductive body :=
| BDict (fields : list (string * field))
| BRows (rows : list (list (string * cell))).

Definition response : Type := body * Z.

Definition status (r : response) : Z := r.2.

(** [key in body] *)
Definition body_has (key : string) (b : body) : bool :=
  match b with
  | BDict fields => existsb (λ kv, String.eqb kv.1 key) fields
  | BRows _ => false
  end.

(** A body that Flask's JSON provider can serialize: a dict of texts and
    names always, a list of rows when every value of every row can be. *)
Definition serializable (b : body) : bool :=
  match b with
  | BDict _ => true
  | BRows rows =>
      forallb (forallb (λ kv, match kv.2 with Json _ => true | Opaque _ => false end)) rows
  end.

(** [jsonify(x)]: the payload of the response, or [TypeError] for a value
    that cannot be serialized.  Where a view calls [jsonify] on a dict that
    it has just built from texts, the call is written as its payload. *)
Definition jsonify (b : body) : result body :=
  if serializable b then Ok b
  else Raise (Exception "TypeError" [Lit "Object is not JSON serializable"]).

(** ** Building statements *)

(** A table name handed to SQLAlchemy has to be a string.  The views reach
    [Table] only with a name found among the introspected table names, so
    the other case does not arise there. *)
Definition as_str (v : json) : result string :=
  match v with
  | JStr s => Ok s
  | _ => Raise (Exception "TypeError" [Lit "table name is not a string"])
  end.

(** The key of a table in a [MetaData] registry. *)
Definition _get_table_key (name schema : string) : string :=
  (schema ++ "." ++ name)%string.

(** [Table(name, md, schema=schema, autoload_with=engine)]: a table already
    registered in [md] under the same key is returned as it is, without
    reflection; otherwise the table is reflected from the database and
    registered.  A failed reflection leaves the registry as it was.  Tables
    that reflection loads along with the one asked for (through foreign
    keys) are left out; they would only add entries under other keys. *)
Definition Table_new (b : Backend) (table_name : json) (md : gmap string Table)
    (schema : string) : result Table * gmap string Table :=
  match as_str table_name with
  | Raise e => (Raise e, md)
  | Ok name =>
      match md !! _get_table_key name schema with
      | Some t => (Ok t, md)
      | None =>
          match reflect_table b schema name with
          | Ok (cols, pk) =>
              let t := mkTable name schema cols pk in
              (Ok t, <[_get_table_key name schema := t]> md)
          | Raise e => (Raise e, md)
          end
      end
  end.

(** [.values] called with a double-star argument: the argument must be a
    mapping. *)
Definition values_kwargs (data : json) : result json :=
  match data with
  | JObj _ => Ok data
  | _ => Raise (Exception "TypeError" [Lit "argument after ** must be a mapping"])
  end.

(** [.values(data)]: a dict, or a sequence (multiple rows, or one row by
    position); anything else has no [items()]. *)
Definition values_positional (data : json) : result json :=
  match data with
  | JObj _ | JArr _ | JStr _ => Ok data
  | _ => Raise (Exception "AttributeError" [Lit "object has no attribute 'items'"])
  end.

(** [table.c[name]] *)
Definition column (t : Table) (name : string) : result string :=
  if bool_decide (name ∈ t_columns t) then Ok name
  else Raise (Exception "KeyError" [Lit name]).

(** [[dict(zip(columns, row)) for row in rows]] *)
Definition row_dicts (columns : list string) (rows : list (list cell))
    : list (list (string * cell)) :=
  map (λ row, py_dict (combine columns row)) rows.

(** ** The MSSQL application, [REST_APIs_mssql.py] *)

Module MSSQL.

Section App.
Variable b : Backend.

(** [_setup_database]: [self.metadata] is created once, when the
    application starts, and filled by [reflect]. *)
Definition _setup_database : result State :=
  rbind (reflect_all b) (λ tables, Ok (mkState (list_to_map tables) [])).

(** The two nested loops of [fetch_schema_name]: the first schema, in the
    order of [get_schema_names], whose table list has [table_name]. *)
Fixpoint schema_loop (table_name : json) (schemas : list string) : result (option string) :=
  match schemas with
  | [] => Ok None
  | schema :: rest =>
      rbind (get_table_names b schema) (λ tables,
        if name_in table_name tables then Ok (Some schema)
        else schema_loop table_name rest)
  end.

Definition fetch_schema_name (table_name : json) : result (option string) :=
  try_except
    (rbind (inspect_engine b) (λ _,
     rbind (get_schema_names b) (λ schemas,
     schema_loop table_name schemas)))
    (λ e, Ok None).

(** [Table(table_name, self.metadata, schema=schema_name, autoload_with=db.engine)] *)
Definition Table_shared (table_name : json) (schema_name : string) : M Table :=
  λ s, let '(r, md) := Table_new b table_name (metadata s) schema_name in
       (r, mkState md (log s)).

Definition session_execute_select (stmt : Statement) : M (list string * list (list cell)) :=
  emit (EvSessionExecute stmt) ;;; lift (execute_select b stmt).

Definition session_execute (stmt : Statement) : M Z :=
  emit (EvSessionExecute stmt) ;;; lift (execute_dml b stmt).

Definition session_commit : M unit :=
  emit EvSessionCommit ;;; lift (commit b).

Definition error_body (e : exn) : body := BDict [("error", Text (str_exn e))].

Definition message_body (msg : string) : body := BDict [("message", Text [Lit msg])].

(** [[col for col in table.primary_key][0]] *)
Definition first_pk_column (t : Table) : result string :=
  match t_primary_key t with
  | col :: _ => Ok col
  | [] => Raise (Exception "IndexError" [Lit "list index out of range"])
  end.

Definition read_data_from_mssql (schema_name : string) (table_name : json) : M body :=
  try_catch
    (let* table := Table_shared table_name schema_name in
     let* result := session_execute_select (Select table) in
     ret (BRows (row_dicts result.1 result.2)))
    (λ e, ret (error_body e)).

Definition add_record_to_table (schema_name : string) (table_name table_data : json) : M body :=
  try_catch
    (let* table := Table_shared table_name schema_name in
     let* values := lift (values_kwargs table_data) in
     let* _ := session_execute (Insert table values) in
     session_commit ;;;
     ret (message_body "Record added successfully"))
    (λ e, ret (error_body e)).

Definition update_record_in_table (schema_name : string) (table_name pk update_data : json)
    : M body :=
  try_catch
    (let* table := Table_shared table_name schema_name in
     let* pk_column := lift (first_pk_column table) in
     let* values := lift (values_kwargs update_data) in
     let* _ := session_execute (Update table pk_column pk values) in
     session_commit ;;;
     ret (message_body "Record updated successfully"))
    (λ e, ret (error_body e)).

Definition delete_record_from_table (schema_name : string) (table_name pk : json) : M body :=
  try_catch
    (let* table := Table_shared table_name schema_name in
     let* pk_column := lift (first_pk_column table) in
     let* _ := session_execute (Delete table pk_column pk) in
     session_commit ;;;
     ret (message_body "Record deleted successfully"))
    (λ e, ret (error_body e)).

Definition error_response (msg : fstring) (code : Z) : response :=
  (BDict [("error", Text msg)], code).

Definition schema_not_found (table_name : json) : response :=
  error_response [Lit "Schema for table '"; Interp table_name; Lit "' not found."] 404.

(** The end of every view: a helper result with an ["error"] key is a 500.
    Both [jsonify] calls are outside any [try]. *)
Definition finish (final_status : body) : M response :=
  if body_has "error" final_status then
    let* payload := lift (jsonify final_status) in
    ret (payload, 500)
  else
    let* payload := lift (jsonify final_status) in
    ret (payload, 200).

(** The views.  An exception that leaves a view is not handled by the
    application; Flask answers it with a 500. *)

Definition read_table (request_data : json) : M response :=
  let* table_name := lift (py_get "table_name" request_data) in
  if negb (truthy table_name) then
    ret (error_response [Lit "Table name is not provided."] 400)
  else
    let* schema_name := lift (fetch_schema_name table_name) in
    if negb (str_truthy schema_name) then ret (schema_not_found table_name)
    else
      let* final_status := read_data_from_mssql (default "" schema_name) table_name in
      finish final_status.

Definition add_record (request_data : json) : M response :=
  let* table_name := lift (py_get "table_name" request_data) in
  let* table_data := lift (py_get "table_data" request_data) in
  if negb (truthy table_name) || negb (truthy table_data) then
    ret (error_response [Lit "Table name or data is not provided."] 400)
  else
    let* schema_name := lift (fetch_schema_name table_name) in
    if negb (str_truthy schema_name) then ret (schema_not_found table_name)
    else
      let* final_status :=
        add_record_to_table (default "" schema_name) table_name table_data in
      finish final_status.

Definition update_record (request_data : json) : M response :=
  let* table_name := lift (py_get "table_name" request_data) in
  let* pk := lift (py_get "pk" request_data) in
  let* update_data := lift (py_get "update_data" request_data) in
  if negb (truthy table_name) || negb (truthy pk) || negb (truthy update_data) then
    ret (error_response
           [Lit "Table name, primary key (pk), or update data is not provided."] 400)
  else
    let* schema_name := lift (fetch_schema_name table_name) in
    if negb (str_truthy schema_name) then ret (schema_not_found table_name)
    else
      let* final_status :=
        update_record_in_table (default "" schema_name) table_name pk update_data in
      finish final_status.

Definition delete_record (request_data : json) : M response :=
  let* table_name := lift (py_get "table_name" request_data) in
  let* pk := lift (py_get "pk" request_data) in
  if negb (truthy table_name) || negb (truthy pk) then
    ret (error_response [Lit "Table name or primary key (pk) is not provided."] 400)
  else
    let* schema_name := lift (fetch_schema_name table_name) in
    if negb (str_truthy schema_name) then ret (schema_not_found table_name)
    else
      let* final_status :=
        delete_record_from_table (default "" schema_name) table_name pk in
      finish final_status.

End App.

End MSSQL.

(** ** The MySQL application, [REST_APIs_mysql.py] *)

Module MySQL.

(** The first component of what [get_schemas] returns. *)
Inductive schemas_response :=
| SchemasOk (schemas : list string)
| SchemasError (err : fstring).

Definition jsonify_schemas (r : schemas_response) : body :=
  match r with
  | SchemasOk schemas => BDict [("schemas", Names schemas)]
  | SchemasError err => BDict [("error", Text err)]
  end.

Definition schemas_of (r : schemas_response) : list string :=
  match r with
  | SchemasOk schemas => schemas
  | SchemasError _ => []
  end.

Section App.
Variable b : Backend.

Definition get_schemas : schemas_response * Z :=
  match rbind (inspect_engine b) (λ _, get_schema_names b) with
  | Ok schemas => (SchemasOk schemas, 200)
  | Raise e => (SchemasError (str_exn e), 500)
  end.

Definition table_exists_in_schema (schema_name : string) (table_name : json) : result bool :=
  rbind (inspect_engine b) (λ _,
  rbind (get_table_names b schema_name) (λ tables,
  Ok (name_in table_name tables))).

Definition get_primary_key_column (schema_name : string) (table_name : json)
    : result (option string) :=
  rbind (inspect_engine b) (λ _,
  try_except
    (rbind (as_str table_name) (λ name,
     rbind (get_pk_constraint b name schema_name) (λ primary_key_columns,
     match primary_key_columns with
     | col :: _ => Ok (Some col)
     | [] => Ok None
     end)))
    (λ e, Ok None)).

(** The loop every view runs over the schemas: [schema_name] is the first
    schema for which [table_exists_in_schema] answers true, [None] when the
    loop ends without one. *)
Fixpoint find_schema (table_name : json) (schemas : list string) : result (option string) :=
  match schemas with
  | [] => Ok None
  | schema :: rest =>
      rbind (table_exists_in_schema schema table_name) (λ found,
        if found then Ok (Some schema) else find_schema table_name rest)
  end.

(** [Table(table_name, MetaData(), schema=schema_name, autoload_with=self.db.engine)]:
    the registry is new and dropped after the request. *)
Definition Table_fresh (table_name : json) (schema_name : string) : result Table :=
  (Table_new b table_name ∅ schema_name).1.

Definition engine_connect : M unit := lift (connect b) ;;; emit EvConnect.

Definition conn_execute_select (stmt : Statement) : M (list string * list (list cell)) :=
  emit (EvExecute stmt) ;;; lift (execute_select b stmt).

Definition conn_execute (stmt : Statement) : M Z :=
  emit (EvExecute stmt) ;;; lift (execute_dml b stmt).

Definition conn_commit : M unit := emit EvCommit ;;; lift (commit b).

Definition conn_close : M unit := emit EvClose.

(** [not data or 'k1' not in data or ...], evaluated left to right. *)
Fixpoint any_missing (keys : list string) (data : json) : result bool :=
  match keys with
  | [] => Ok false
  | k :: rest =>
      rbind (py_in k data) (λ present,
        if present then any_missing rest data else Ok true)
  end.

Definition invalid (keys : list string) (data : json) : result bool :=
  if negb (truthy data) then Ok true else any_missing keys data.

Definition no_such_table (table_name : json) : exn :=
  ValueError [Lit "Table '"; Interp table_name; Lit "' does not exist in any schema."].

Definition no_primary_key (table_name : json) : exn :=
  ValueError [Lit "Primary key column not found for table '"; Interp table_name; Lit "'"].

Definition no_record (pk table_name : json) : response :=
  (BDict [("message", Text [Lit "No record found with primary key "; Interp pk;
                            Lit " in table '"; Interp table_name; Lit "'"])], 404).

Definition message_response (msg : string) : response :=
  (BDict [("message", Text [Lit msg])], 200).

(** The two [except] clauses of every view. *)
Definition handlers (failed : string) (e : exn) : M response :=
  match e with
  | ValueError msg => ret (BDict [("error", Text msg)], 400)
  | Exception _ msg =>
      ret (BDict [("error", Text [Lit failed]); ("details", Text msg)], 500)
  end.

(** Lines 53 to 67 of [read_table], the same in the four views: list the
    schemas, look for the table, and go on with the schema found. *)
Definition with_schema (table_name : json) (k : string → M response) : M response :=
  let '(schemas_response, schemas_status) := get_schemas in
  if negb (schemas_status =? 200) then
    ret (jsonify_schemas schemas_response, schemas_status)
  else
    let* schema_name := lift (find_schema table_name (schemas_of schemas_response)) in
    if negb (str_truthy schema_name) then raise (no_such_table table_name)
    else k (default "" schema_name).

(** Lines 156 to 158 of [update_record], the same in [delete_record]. *)
Definition with_primary_key (schema_name : string) (table_name : json)
    (k : string → M response) : M response :=
  let* primary_key_col := lift (get_primary_key_column schema_name table_name) in
  if negb (str_truthy primary_key_col) then raise (no_primary_key table_name)
  else k (default "" primary_key_col).

Definition read_table (data : json) : M response :=
  try_catch
    (let* bad := lift (invalid ["table_name"] data) in
     if bad then raise (ValueError [Lit "Invalid JSON format. 'table' must be provided."])
     else
       let* table_name := lift (py_getitem "table_name" data) in
       with_schema table_name (λ schema_name,
         let* table := lift (Table_fresh table_name schema_name) in
         engine_connect ;;;
         let* result := conn_execute_select (Select table) in
         conn_close ;;;
         let* payload := lift (jsonify (BRows (row_dicts result.1 result.2))) in
         ret (payload, 200)))
    (handlers "Failed to read table").

Definition add_record (data : json) : M response :=
  try_catch
    (let* bad := lift (invalid ["table_name"; "table_data"] data) in
     if bad then
       raise (ValueError
                [Lit "Invalid JSON format. 'table_name' and 'table_data' must be provided."])
     else
       let* table_name := lift (py_getitem "table_name" data) in
       let* table_data := lift (py_getitem "table_data" data) in
       with_schema table_name (λ schema_name,
         let* table := lift (Table_fresh table_name schema_name) in
         let* values := lift (values_positional table_data) in
         engine_connect ;;;
         let* _ := conn_execute (Insert table values) in
         conn_commit ;;;
         conn_close ;;;
         ret (message_response "Record added successfully")))
    (handlers "Failed to add record").

Definition update_record (data : json) : M response :=
  try_catch
    (let* bad := lift (invalid ["table_name"; "pk"; "update_data"] data) in
     if bad then
       raise (ValueError
                [Lit "Invalid JSON format. 'table', 'pk', and 'update_data' must be provided."])
     else
       let* table_name := lift (py_getitem "table_name" data) in
       let* pk := lift (py_getitem "pk" data) in
       let* update_data := lift (py_getitem "update_data" data) in
       with_schema table_name (λ schema_name,
         with_primary_key schema_name table_name (λ primary_key_col,
           let* table := lift (Table_fresh table_name schema_name) in
           let* pk_column := lift (column table primary_key_col) in
           let* values := lift (values_positional update_data) in
           engine_connect ;;;
           let* rowcount := conn_execute (Update table pk_column pk values) in
           conn_commit ;;;
           conn_close ;;;
           if rowcount =? 0 then ret (no_record pk table_name)
           else ret (message_response "Record updated successfully"))))
    (handlers "Failed to update record").

Definition delete_record (data : json) : M response :=
  try_catch
    (let* bad := lift (invalid ["table_name"; "pk"] data) in
     if bad then
       raise (ValueError [Lit "Invalid JSON format. 'table' and 'pk' must be provided."])
     else
       let* table_name := lift (py_getitem "table_name" data) in
       let* pk := lift (py_getitem "pk" data) in
       with_schema table_name (λ schema_name,
         with_primary_key schema_name table_name (λ primary_key_col,
           let* table := lift (Table_fresh table_name schema_name) in
           let* pk_column := lift (column table primary_key_col) in
           engine_connect ;;;
           let* rowcount := conn_execute (Delete table pk_column pk) in
           conn_commit ;;;
           conn_close ;;;
           if rowcount =? 0 then ret (no_record pk table_name)
           else ret (message_response "Record deleted successfully"))))
    (handlers "Failed to delete record").

End App.

End MySQL.

(** * Properties *)

(** ** Resolution of a table name to a schema *)

(** The table list of [schema] can be read and has (has not) the table. *)
Definition has_table (b : Backend) (schema : string) (table_name : json) : Prop :=
  ∃ tables, get_table_names b schema = Ok tables ∧ name_in table_name tables = true.

Definition lacks_table (b : Backend) (schema : string) (table_name : json) : Prop :=
  ∃ tables, get_table_names b schema = Ok tables ∧ name_in table_name tables = false.

(** [s] is the first schema of [schemas] that has the table. *)
Definition first_match (b : Backend) (table_name : json) (schemas : list string)
    (s : string) : Prop :=
  ∃ pre post, schemas = pre ++ s :: post
              ∧ Forall (λ s', lacks_table b s' table_name) pre
              ∧ has_table b s table_name.

(** No schema that introspection can list has the table. *)
Definition in_no_schema (b : Backend) (table_name : json) : Prop :=
  ∀ schemas s tables,
    get_schema_names b = Ok schemas → s ∈ schemas →
    get_table_names b s = Ok tables → name_in table_name tables = false.

(** Introspection answers every question about the schemas. *)
Definition introspection_ok (b : Backend) (schemas : list string) : Prop :=
  inspect_engine b = Ok tt ∧ get_schema_names b = Ok schemas
  ∧ ∀ s, s ∈ schemas → is_Ok (get_table_names b s) = true.

(** The fields a view requires are given and true (the MSSQL test), or
    are keys of the body (the MySQL test). *)
Definition provided (keys : list string) (fields : list (string * json)) : Prop :=
  ∀ k, k ∈ keys → truthy (dict_get k fields) = true.

Definition present (keys : list string) (fields : list (string * json)) : Prop :=
  ∀ k, k ∈ keys → is_Some (dict_lookup k fields).

(** The answer of the MySQL views to a table name they do not find. *)
Definition table_missing_400 (table_name : json) : response :=
  (BDict [("error", Text (str_exn (MySQL.no_such_table table_name)))], 400).

(** The answers of the MSSQL views [update_record] and [delete_record] to
    a request without a field they require. *)
Definition mssql_update_missing : response :=
  MSSQL.error_response
    [Lit "Table name, primary key (pk), or update data is not provided."] 400.

Definition mssql_delete_missing : response :=
  MSSQL.error_response [Lit "Table name or primary key (pk) is not provided."] 400.

(** The answer of the MySQL views to a table without a primary key. *)
Definition primary_key_missing_400 (table_name : json) : response :=
  (BDict [("error", Text (str_exn (MySQL.no_primary_key table_name)))], 400).

(** The primary key of a table cannot be resolved: the constraint cannot be
    read, or has no column, or its first column has the empty name. *)
Definition primary_key_unresolved (b : Backend) (schema : string) (table_name : json) : Prop :=
  ∀ name col rest, table_name = JStr name →
    get_pk_constraint b name schema = Ok (col :: rest) → col = "".

(** A run that answers 400 with an ["error"] field and leaves the state. *)
Definition bad_request (run : result response * State) (st : State) : Prop :=
  ∃ r, run = (Ok r, st) ∧ status r = 400 ∧ body_has "error" r.1 = true.

(** What a run of a view answers, and the trace it leaves. *)
Definition answer (run : result response * State) : result response := run.1.

Definition status_of (run : result response * State) : option Z :=
  match run.1 with
  | Ok r => Some (status r)
  | Raise _ => None
  end.

Definition trace (run : result response * State) : list event := log run.2.

(** [post m P]: in every state, [m] leaves the registry alone and adds
    events [evs] to the trace, and its result [r] and [evs], which do not
    depend on the state, satisfy [P]. *)
Definition post {A} (m : M A) (P : result A → list event → Prop) : Prop :=
  ∃ r evs, (∀ s, m s = (r, mkState (metadata s) (log s ++ evs))) ∧ P r evs.

(** The trace of the MySQL view [read_table]: no connection at all, or a
    connection that is closed after the select, or, when the select raises,
    a connection that stays open while the view answers. *)
Definition read_trace (b : Backend) (r : result response) (evs : list event) : Prop :=
  evs = []
  ∨ (∃ stmt, evs = [EvConnect; EvExecute stmt; EvClose]
             ∧ is_Ok (execute_select b stmt) = true)
  ∨ (∃ stmt resp, evs = [EvConnect; EvExecute stmt]
             ∧ is_Ok (execute_select b stmt) = false ∧ r = Ok resp).

(** A computation whose result and events are the same in every state and
    which leaves the registry alone. *)
Definition per_request {A} (m : M A) : Prop := post m (λ _ _, True).

(** What the trace of a MySQL update or delete says about the answer: when
    a statement was executed and committed on a connection that was then
    closed, the answer is 404 if no row was affected and 200 otherwise. *)
Definition rowcount_decides (b : Backend) (r : result response) (evs : list event) : Prop :=
  ∀ stmt, evs = [EvConnect; EvExecute stmt; EvCommit; EvClose] →
    ∃ n resp, execute_dml b stmt = Ok n ∧ r = Ok resp
              ∧ status resp = (if n =? 0 then 404 else 200).

(** ** Example databases *)

Definition start : State := mkState ∅ [].

(** A database with the schemas [dbo] and [hr].  [hr] holds [Employees],
    with the columns [pk_col] and [name] and the primary key [pk_col];
    [dbo] holds [Logs], which has no primary key.  A write answers
    [written]. *)
Definition company_db (pk_col : string) (written : result Z) : Backend := {|
  inspect_engine := Ok tt;
  get_schema_names := Ok ["dbo"; "hr"];
  get_table_names := λ schema,
    if String.eqb schema "hr" then Ok ["Employees"]
    else if String.eqb schema "dbo" then Ok ["Logs"]
    else Ok [];
  get_pk_constraint := λ table schema,
    if String.eqb table "Employees" then Ok [pk_col] else Ok [];
  reflect_table := λ schema table,
    if String.eqb table "Employees" then Ok ([pk_col; "name"], [pk_col])
    else if String.eqb table "Logs" then Ok (["line"], [])
    else Raise (Exception "NoSuchTableError" [Lit table]);
  reflect_all := Ok [];
  connect := Ok tt;
  execute_select := λ _, Ok (["id"; "name"], [[Json (JInt 1); Json (JStr "Ann")]]);
  execute_dml := λ _, written;
  commit := Ok tt
|}.

Definition connection_lost : exn := Exception "OperationalError" [Lit "connection lost"].

(** The same database when the table lists cannot be read. *)
Definition flaky_db : Backend := {|
  inspect_engine := Ok tt;
  get_schema_names := Ok ["dbo"; "hr"];
  get_table_names := λ _, Raise connection_lost;
  get_pk_constraint := get_pk_constraint (company_db "id" (Ok 1));
  reflect_table := reflect_table (company_db "id" (Ok 1));
  reflect_all := Ok [];
  connect := Ok tt;
  execute_select := execute_select (company_db "id" (Ok 1));
  execute_dml := λ _, Ok 1;
  commit := Ok tt
|}.

(** The same database when a select fails. *)
Definition failing_select_db : Backend := {|
  inspect_engine := Ok tt;
  get_schema_names := Ok ["dbo"; "hr"];
  get_table_names := get_table_names (company_db "id" (Ok 1));
  get_pk_constraint := get_pk_constraint (company_db "id" (Ok 1));
  reflect_table := reflect_table (company_db "id" (Ok 1));
  reflect_all := Ok [];
  connect := Ok tt;
  execute_select := λ _, Raise connection_lost;
  execute_dml := λ _, Ok 1;
  commit := Ok tt
|}.

Definition employees (pk_col : string) : Table :=
  mkTable "Employees" "hr" [pk_col; "name"] [pk_col].

Definition update_ann : json :=
  JObj [("table_name", JStr "Employees"); ("pk", JInt 1);
        ("update_data", JObj [("name", JStr "Anna")])].

Definition delete_ann : json :=
  JObj [("table_name", JStr "Employees"); ("pk", JInt 1)].

Definition read_employees : json := JObj [("table_name", JStr "Employees")].

Definition read_ghost : json := JObj [("table_name", JStr "Ghost")].

Definition update_log : json :=
  JObj [("table_name", JStr "Logs"); ("pk", JInt 1);
        ("update_data", JObj [("line", JStr "x")])].

Definition add_ann : json :=
  JObj [("table_name", JStr "Employees");
        ("table_data", JObj [("id", JInt 1); ("name", JStr "Ann")])].

Definition add_nothing : json :=
  JObj [("table_name", JStr "Employees"); ("table_data", JObj [])].

Definition logs : Table := mkTable "Logs" "dbo" ["line"] [].

(** ** Further vocabulary *)

(** A result that is a response with one of the given status codes. *)
Definition status_in (codes : list Z) (r : result response) : Prop :=
  ∃ resp, r = Ok resp ∧ status resp ∈ codes.

(** [sat m Q]: from every state, [m] keeps what the registry holds, adds
    events [evs] to the trace, and its result and [evs] satisfy [Q]. *)
Definition sat {A} (m : M A) (Q : result A → list event → Prop) : Prop :=
  ∀ s, ∃ evs, metadata s ⊆ metadata (m s).2
              ∧ log (m s).2 = log s ++ evs
              ∧ Q (m s).1 evs.

(** The trace a view adds in a state, with its answer, satisfies [P]. *)
Definition request_trace (view : M response) (st : State)
    (P : result response → list event → Prop) : Prop :=
  ∃ evs, trace (view st) = log st ++ evs ∧ P (answer (view st)) evs.

(** All the given fields of an object body are true in Python. *)
Definition all_truthy (keys : list string) (fields : list (string * json)) : bool :=
  forallb (λ k, truthy (dict_get k fields)) keys.

(** All the given keys are keys of an object body. *)
Definition all_present (keys : list string) (fields : list (string * json)) : bool :=
  forallb (λ k, bool_decide (is_Some (dict_lookup k fields))) keys.

Definition is_object (data : json) : bool :=
  match data with JObj _ => true | _ => false end.

Definition is_scalar (data : json) : bool :=
  match data with JBool _ | JInt _ | JFloat _ => true | _ => false end.

(** The outcome of an MSSQL helper that writes: the message of success
    after an executed and committed statement, or the error of the step that
    raised, with nothing committed after a failed execution. *)
Definition write_outcome (b : Backend) (msg : string) (r : result body)
    (evs : list event) : Prop :=
  (r = Ok (MSSQL.message_body msg)
   ∧ ∃ stmt, evs = [EvSessionExecute stmt; EvSessionCommit]
             ∧ is_Ok (execute_dml b stmt) = true ∧ is_Ok (commit b) = true)
  ∨ (∃ e, r = Ok (MSSQL.error_body e)
          ∧ (evs = []
             ∨ (∃ stmt, evs = [EvSessionExecute stmt] ∧ execute_dml b stmt = Raise e)
             ∨ (∃ stmt, evs = [EvSessionExecute stmt; EvSessionCommit]
                        ∧ is_Ok (execute_dml b stmt) = true ∧ commit b = Raise e))).

(** The traces of a MySQL view that writes, by its answer: a statement
    executed, committed and its connection closed behind every 200 and
    404. *)
Definition committed_write (b : Backend) (r : result response) (evs : list event) : Prop :=
  ∀ resp, r = Ok resp → status resp = 200 ∨ status resp = 404 →
    ∃ stmt, evs = [EvConnect; EvExecute stmt; EvCommit; EvClose]
            ∧ is_Ok (execute_dml b stmt) = true ∧ is_Ok (commit b) = true.

(** Behind a 200 of the MySQL [read_table]: one select on a reflected table
    of the request's name, and the fetched rows as the body. *)
Definition read_answer (b : Backend) (data : json) (r : result response)
    (evs : list event) : Prop :=
  ∀ resp, r = Ok resp → status resp = 200 →
    ∃ t columns rows,
      evs = [EvConnect; EvExecute (Select t); EvClose]
      ∧ py_getitem "table_name" data = Ok (JStr (t_name t))
      ∧ reflect_table b (t_schema t) (t_name t) = Ok (t_columns t, t_primary_key t)
      ∧ execute_select b (Select t) = Ok (columns, rows)
      ∧ resp.1 = BRows (row_dicts columns rows).


(** What the statement of a MySQL update or delete is built from: the
    table of the request's name in the first schema that has it, reflected
    now, and the first column of its primary key constraint. *)
Definition targets (b : Backend) (data : json) (t : Table) (col : string) : Prop :=
  ∃ name schemas rest,
    py_getitem "table_name" data = Ok (JStr name)
    ∧ get_schema_names b = Ok schemas
    ∧ first_match b (JStr name) schemas (t_schema t)
    ∧ t_name t = name
    ∧ reflect_table b (t_schema t) name = Ok (t_columns t, t_primary_key t)
    ∧ get_pk_constraint b name (t_schema t) = Ok (col :: rest)
    ∧ col ∈ t_columns t.

Definition update_statement (b : Backend) (data : json) (r : result response)
    (evs : list event) : Prop :=
  ∀ stmt, EvExecute stmt ∈ evs →
    ∃ t col pk values,
      stmt = Update t col pk values
      ∧ py_getitem "pk" data = Ok pk
      ∧ py_getitem "update_data" data = Ok values
      ∧ targets b data t col.

Definition delete_statement (b : Backend) (data : json) (r : result response)
    (evs : list event) : Prop :=
  ∀ stmt, EvExecute stmt ∈ evs →
    ∃ t col pk,
      stmt = Delete t col pk
      ∧ py_getitem "pk" data = Ok pk
      ∧ targets b data t col.

(** The answers of the MySQL views to a body without a key they require. *)
Definition invalid_json (msg : string) : response :=
  (BDict [("error", Text [Lit msg])], 400).

(** The lookup of the MySQL views, from the listing of the schemas on;
    [None] also stands for a listing that failed. *)
Definition mysql_lookup (b : Backend) (table_name : json) : result (option string) :=
  match MySQL.get_schemas b with
  | (MySQL.SchemasOk schemas, _) => MySQL.find_schema b table_name schemas
  | (MySQL.SchemasError _, _) => Ok None
  end.

(** The trace a computation adds in a state, with its result, satisfies
    [P]. *)
Definition run_trace {A} (m : M A) (st : State)
    (P : result A → list event → Prop) : Prop :=
  ∃ evs, log (m st).2 = log st ++ evs ∧ P (m st).1 evs.

(** The outcome of the MSSQL helper that reads: the fetched rows after one
    select, or the error of the step that raised. *)
Definition read_outcome (b : Backend) (r : result body) (evs : list event) : Prop :=
  (∃ t columns rows,
     r = Ok (BRows (row_dicts columns rows)) ∧ evs = [EvSessionExecute (Select t)]
     ∧ execute_select b (Select t) = Ok (columns, rows))
  ∨ (∃ e, r = Ok (MSSQL.error_body e)
          ∧ (evs = [] ∨ ∃ stmt, evs = [EvSessionExecute stmt]
                                ∧ execute_select b stmt = Raise e)).

(** From [st] to [st'] no table of the registry is removed or replaced, and
    the trace is only added to. *)
Definition registry_kept (st st' : State) : Prop :=
  (∀ key t, metadata st !! key = Some t → metadata st' !! key = Some t)
  ∧ log st `prefix_of` log st'.



(** A result that is a response with the given status. *)
Definition has_status (r : result response) (code : Z) : Prop :=
  ∃ resp, r = Ok resp ∧ status resp = code.

(** The MSSQL view [read_table] raises at its last [jsonify]: the select
    returned rows that hold a value that cannot be serialized. *)
Definition unserializable_rows (b : Backend) (r : result response)
    (evs : list event) : Prop :=
  ∃ t columns rows msg,
    r = Raise (Exception "TypeError" msg)
    ∧ evs = [EvSessionExecute (Select t)]
    ∧ execute_select b (Select t) = Ok (columns, rows)
    ∧ serializable (BRows (row_dicts columns rows)) = false.

Definition read_answers (b : Backend) (r : result response) (evs : list event) : Prop :=
  status_in [200; 400; 404; 500] r ∨ unserializable_rows b r evs.

(** An MSSQL view answers an object body with 400 exactly when a field it
    requires is absent or false. *)
Definition answers_400_iff (keys : list string) (fields : list (string * json))
    (r : result response) (evs : list event) : Prop :=
  has_status r 400 ↔ all_truthy keys fields = false.

(** The answer of an MSSQL view to an object body is a 404 exactly when
    the fields it requires are given and [fetch_schema_name] returns [None]
    or a schema with the empty name. *)
Definition answers_404_iff (b : Backend) (keys : list string)
    (fields : list (string * json)) (r : result response) (evs : list event) : Prop :=
  ∃ schema_name,
    MSSQL.fetch_schema_name b (dict_get "table_name" fields) = Ok schema_name
    ∧ (has_status r 404
       ↔ all_truthy keys fields = true ∧ str_truthy schema_name = false).

(** The request names, with a string that is not empty, a table that
    [fetch_schema_name] finds on the database [b] in the schema [schema],
    whose name is not empty. *)
Definition resolves (b : Backend) (fields : list (string * json)) (name schema : string)
    : Prop :=
  dict_get "table_name" fields = JStr name ∧ name ≠ ""
  ∧ MSSQL.fetch_schema_name b (JStr name) = Ok (Some schema) ∧ schema ≠ "".

(** A payload that [values] accepts behind a double star and that is true
    in Python: an object that is not empty. *)
Definition payload_ok (data : json) : Prop :=
  truthy data = true ∧ values_kwargs data = Ok data.

(** The one statement a run sends to the session, after the state [st]. *)
Definition sends (stmt : Statement) (st : State) (run : result response * State) : Prop :=
  executed (trace run) = executed (log st) ++ [EvSessionExecute stmt].

(** The company database when [Employees] has a column of bytes. *)
Definition blob_db : Backend := {|
  inspect_engine := Ok tt;
  get_schema_names := Ok ["dbo"; "hr"];
  get_table_names := get_table_names (company_db "id" (Ok 1));
  get_pk_constraint := get_pk_constraint (company_db "id" (Ok 1));
  reflect_table := reflect_table (company_db "id" (Ok 1));
  reflect_all := Ok [];
  connect := Ok tt;
  execute_select := λ _, Ok (["id"; "photo"], [[Json (JInt 1); Opaque "bytes"]]);
  execute_dml := λ _, Ok 1;
  commit := Ok tt
|}.

Lemma name_in_spec (table_name : json) (names : list string) :
  name_in table_name names = true ↔ ∃ name, table_name = JStr name ∧ name ∈ names.
Proof.
  unfold name_in. rewrite existsb_exists. split.
  - intros (t & Hin & Heq). destruct table_name; simpl in Heq; try discriminate.
    apply String.eqb_eq in Heq. subst. exists t. split; [done|].
    by apply list_elem_of_In.
  - intros (name & -> & Hin). exists name. split.
    + by apply list_elem_of_In.
    + simpl. apply String.eqb_refl.
Qed.

Lemma has_table_sound (b : Backend) (schema : string) (table_name : json) :
  has_table b schema table_name →
  ∃ tables name, get_table_names b schema = Ok tables
                 ∧ table_name = JStr name ∧ name ∈ tables.
Proof.
  intros (tables & Ht & Hin). apply name_in_spec in Hin as (name & -> & Hin).
  by exists tables, name.
Qed.

Lemma mssql_schema_loop_spec (b : Backend) (table_name : json) (schemas : list string)
    (s : string) :
  MSSQL.schema_loop b table_name schemas = Ok (Some s) ↔ first_match b table_name schemas s.
Proof.
  induction schemas as [|schema rest IH]; simpl.
  - split; [discriminate|]. intros (pre & post & Heq & _). by destruct pre.
  - destruct (get_table_names b schema) as [tables|e] eqn:Ht; simpl.
    + destruct (name_in table_name tables) eqn:Hin.
      * split.
        -- intros [= ->]. exists [], rest. repeat split; [constructor|].
           by exists tables.
        -- intros ([|p pre] & post & Heq & Hpre & Hhas); simpl in Heq.
           ++ by injection Heq as -> _.
           ++ injection Heq as -> _. apply Forall_cons in Hpre as [(t & Ht' & Hn) _].
              congruence.
      * rewrite IH. split.
        -- intros (pre & post & -> & Hpre & Hhas). exists (schema :: pre), post.
           repeat split; [|done]. constructor; [|done]. by exists tables.
        -- intros ([|p pre] & post & Heq & Hpre & Hhas); simpl in Heq.
           ++ injection Heq as <- _. destruct Hhas as (t & Ht' & Hn). congruence.
           ++ injection Heq as _ ->. apply Forall_cons in Hpre as [_ Hpre].
              by exists pre, post.
    + split; [discriminate|].
      intros ([|p pre] & post & Heq & Hpre & Hhas); simpl in Heq.
      * injection Heq as <- _. destruct Hhas as (t & Ht' & _). congruence.
      * injection Heq as -> _. apply Forall_cons in Hpre as [(t & Ht' & _) _].
        congruence.
Qed.

Lemma mysql_find_schema_spec (b : Backend) (table_name : json) (schemas : list string)
    (s : string) :
  MySQL.find_schema b table_name schemas = Ok (Some s)
  ↔ inspect_engine b = Ok tt ∧ first_match b table_name schemas s.
Proof.
  destruct (inspect_engine b) as [[]|e] eqn:Hi.
  - rewrite <- mssql_schema_loop_spec. split.
    + intros H. split; [done|]. revert H.
      induction schemas as [|schema rest IH]; simpl; [done|].
      unfold MySQL.table_exists_in_schema. rewrite Hi. simpl.
      destruct (get_table_names b schema); simpl; [|done].
      destruct (name_in table_name a); [done|]. apply IH.
    + intros [_ H]. revert H.
      induction schemas as [|schema rest IH]; simpl; [done|].
      unfold MySQL.table_exists_in_schema. rewrite Hi. simpl.
      destruct (get_table_names b schema); simpl; [|done].
      destruct (name_in table_name a); [done|]. apply IH.
  - split; [|by intros [? _]].
    destruct schemas as [|schema rest]; simpl; [done|].
    unfold MySQL.table_exists_in_schema. rewrite Hi. done.
Qed.

(** A table name that is resolved is a string: the views hand only strings
    to [Table]. *)
Lemma resolved_name_is_string (b : Backend) (table_name : json) (s : string) :
  MSSQL.fetch_schema_name b table_name = Ok (Some s)
  ∨ (∃ schemas, MySQL.find_schema b table_name schemas = Ok (Some s)) →
  ∃ name, table_name = JStr name.
Proof.
  intros [H|(schemas & H)].
  - unfold MSSQL.fetch_schema_name in H.
    destruct (inspect_engine b) as [[]|e]; simpl in H; [|discriminate].
    destruct (get_schema_names b) as [schemas|e]; simpl in H; [|discriminate].
    destruct (MSSQL.schema_loop b table_name schemas) as [r|e] eqn:Hl; simpl in H;
      [|discriminate].
    injection H as ->. apply mssql_schema_loop_spec in Hl as (_ & _ & _ & _ & Hhas).
    apply has_table_sound in Hhas as (_ & name & _ & -> & _). by exists name.
  - apply mysql_find_schema_spec in H as (_ & _ & _ & _ & _ & Hhas).
    apply has_table_sound in Hhas as (_ & name & _ & -> & _). by exists name.
Qed.

Lemma first_match_exists (b : Backend) (table_name : json) (schemas : list string) :
  (∀ s', s' ∈ schemas → is_Ok (get_table_names b s') = true) →
  (∃ s', s' ∈ schemas ∧ has_table b s' table_name) →
  ∃ s, first_match b table_name schemas s.
Proof.
  induction schemas as [|schema rest IH]; intros Hread (s' & Hin & Hhas).
  - by apply elem_of_nil in Hin.
  - destruct (get_table_names b schema) as [tables|e] eqn:Ht.
    + destruct (name_in table_name tables) eqn:Hn.
      * exists schema, [], rest. repeat split; [constructor|]. by exists tables.
      * destruct IH as (s & pre & post & -> & Hpre & Hs).
        -- intros s0 Hs0. apply Hread. by constructor.
        -- apply elem_of_cons in Hin as [->|Hin]; [|by exists s'].
           destruct Hhas as (tables' & Ht' & Hn'). congruence.
        -- exists s, (schema :: pre), post. repeat split; [|done].
           constructor; [|done]. by exists tables.
    + specialize (Hread schema). rewrite Ht in Hread. discriminate Hread. constructor.
Qed.

(** C3. [fetch_schema_name] goes through the schemas in the order
    [get_schema_names] lists them and returns a schema exactly when it is
    the first one whose table list has the table name.  The MySQL views do
    the same: [get_schemas] answers with the list of [get_schema_names], the
    loop over it finds exactly the first schema that has the table, and the
    view goes on with that schema.  A schema that is returned is listed and
    has a table of that name.  The search ends at a table list that cannot be
    read; when every list can be read and some schema has the table, a first
    one is found. *)
Theorem resolve_first_match (b : Backend) (table_name : json) (s : string) :
  (MSSQL.fetch_schema_name b table_name = Ok (Some s)
   ↔ inspect_engine b = Ok tt
     ∧ ∃ schemas, get_schema_names b = Ok schemas ∧ first_match b table_name schemas s)
  ∧ (∀ schemas, MySQL.get_schemas b = (MySQL.SchemasOk schemas, 200)
                ↔ inspect_engine b = Ok tt ∧ get_schema_names b = Ok schemas)
  ∧ (∀ schemas, MySQL.find_schema b table_name schemas = Ok (Some s)
                ↔ inspect_engine b = Ok tt ∧ first_match b table_name schemas s)
  ∧ (∀ schemas k st,
       inspect_engine b = Ok tt → get_schema_names b = Ok schemas →
       first_match b table_name schemas s → s ≠ "" →
       MySQL.with_schema b table_name k st = k s st)
  ∧ (∀ schemas, first_match b table_name schemas s →
       s ∈ schemas
       ∧ ∃ tables name, get_table_names b s = Ok tables
                        ∧ table_name = JStr name ∧ name ∈ tables)
  ∧ (∀ schemas,
       (∀ s', s' ∈ schemas → is_Ok (get_table_names b s') = true) →
       (∃ s', s' ∈ schemas ∧ has_table b s' table_name) →
       ∃ s0, first_match b table_name schemas s0).
Proof.
  split; [|split; [|split; [|split; [|split]]]].
  - unfold MSSQL.fetch_schema_name.
    destruct (inspect_engine b) as [[]|e]; simpl.
    + destruct (get_schema_names b) as [schemas|e]; simpl.
      * destruct (MSSQL.schema_loop b table_name schemas) as [r|e] eqn:Hl; simpl.
        -- split.
           ++ intros [= ->]. split; [done|]. exists schemas. split; [done|].
              by apply mssql_schema_loop_spec.
           ++ intros (_ & schemas' & [= <-] & Hf).
              apply mssql_schema_loop_spec in Hf. congruence.
        -- split; [discriminate|]. intros (_ & schemas' & [= <-] & Hf).
           apply mssql_schema_loop_spec in Hf. congruence.
      * split; [discriminate|]. by intros (_ & schemas' & ? & _).
    + split; [discriminate|]. by intros [? _].
  - intros schemas. unfold MySQL.get_schemas.
    destruct (inspect_engine b) as [[]|e]; simpl.
    + destruct (get_schema_names b) as [schemas'|e]; split.
      * by intros [= ->].
      * by intros [_ [= ->]].
      * discriminate.
      * by intros [_ ?].
    + split; [discriminate|]. by intros [? _].
  - intros schemas. apply mysql_find_schema_spec.
  - intros schemas k st Hi Hs Hfm Hne. unfold MySQL.with_schema, MySQL.get_schemas.
    rewrite Hi. simpl. rewrite Hs. simpl. unfold bind, lift.
    rewrite (proj2 (mysql_find_schema_spec b table_name schemas s) (conj Hi Hfm)). simpl.
    by apply String.eqb_neq in Hne as ->.
  - intros schemas (pre & post & -> & _ & Hhas). split.
    + apply elem_of_app. right. constructor.
    + by apply has_table_sound.
  - apply first_match_exists.
Qed.

Lemma employees_first_match (pk_col : string) (written : result Z) :
  first_match (company_db pk_col written) (JStr "Employees") ["dbo"; "hr"] "hr".
Proof.
  exists ["dbo"], []. split; [done|]. split.
  - constructor; [|constructor]. by exists ["Logs"].
  - by exists ["Employees"].
Qed.

Lemma resolve_first_match_witness :
  MSSQL.fetch_schema_name (company_db "id" (Ok 1)) (JStr "Employees") = Ok (Some "hr")
  ∧ MySQL.get_schemas (company_db "id" (Ok 1)) = (MySQL.SchemasOk ["dbo"; "hr"], 200)
  ∧ MySQL.find_schema (company_db "id" (Ok 1)) (JStr "Employees") ["dbo"; "hr"]
    = Ok (Some "hr")
  ∧ (∀ k st, MySQL.with_schema (company_db "id" (Ok 1)) (JStr "Employees") k st
             = k "hr" st)
  ∧ "hr" ∈ ["dbo"; "hr"].
Proof.
  destruct (resolve_first_match (company_db "id" (Ok 1)) (JStr "Employees") "hr")
    as (Hms & Hgs & Hmy & Hws & Hsound & _).
  split; [|split; [|split; [|split]]].
  - apply Hms. split; [reflexivity|]. exists ["dbo"; "hr"]. split; [reflexivity|].
    apply employees_first_match.
  - apply Hgs. split; reflexivity.
  - apply Hmy. split; [reflexivity|]. apply employees_first_match.
  - intros k st. apply (Hws ["dbo"; "hr"]); [reflexivity|reflexivity| |discriminate].
    apply employees_first_match.
  - apply (Hsound ["dbo"; "hr"]). apply employees_first_match.
Defined.

(** ** A table name that no schema has *)

Lemma mssql_schema_loop_missing (b : Backend) (table_name : json) (schemas : list string) :
  (∀ s tables, s ∈ schemas → get_table_names b s = Ok tables →
               name_in table_name tables = false) →
  ∀ s, MSSQL.schema_loop b table_name schemas ≠ Ok (Some s).
Proof.
  intros Hno s Hl. apply mssql_schema_loop_spec in Hl as (pre & post & -> & _ & Hhas).
  destruct Hhas as (tables & Ht & Hin).
  rewrite (Hno s tables) in Hin; [done| |done].
  apply elem_of_app. right. constructor.
Qed.

Lemma mssql_fetch_missing (b : Backend) (table_name : json) :
  in_no_schema b table_name → MSSQL.fetch_schema_name b table_name = Ok None.
Proof.
  intros Hno. unfold MSSQL.fetch_schema_name.
  destruct (inspect_engine b) as [[]|e]; simpl; [|done].
  destruct (get_schema_names b) as [schemas|e] eqn:Hs; simpl; [|done].
  destruct (MSSQL.schema_loop b table_name schemas) as [[s|]|e] eqn:Hl; simpl; try done.
  exfalso. eapply mssql_schema_loop_missing; [|exact Hl].
  intros s' tables Hin Ht. by eapply Hno.
Qed.

(** [fetch_schema_name] has a result whatever introspection does. *)
Lemma mssql_fetch_never_raises (b : Backend) (table_name : json) :
  ∃ r, MSSQL.fetch_schema_name b table_name = Ok r.
Proof.
  unfold MSSQL.fetch_schema_name.
  destruct (rbind _ _) as [r|e]; simpl; eauto.
Qed.

Lemma mysql_get_schemas_ok (b : Backend) (schemas : list string) :
  introspection_ok b schemas → MySQL.get_schemas b = (MySQL.SchemasOk schemas, 200).
Proof. intros (Hi & Hs & _). unfold MySQL.get_schemas. by rewrite Hi; simpl; rewrite Hs. Qed.

Lemma mysql_find_schema_missing (b : Backend) (table_name : json) (schemas : list string) :
  inspect_engine b = Ok tt →
  (∀ s, s ∈ schemas → ∃ tables, get_table_names b s = Ok tables
                                 ∧ name_in table_name tables = false) →
  MySQL.find_schema b table_name schemas = Ok None.
Proof.
  intros Hi. induction schemas as [|schema rest IH]; intros Hno; simpl; [done|].
  unfold MySQL.table_exists_in_schema. rewrite Hi. simpl.
  destruct (Hno schema) as (tables & -> & Hin); [constructor|]. simpl. rewrite Hin.
  apply IH. intros s Hs. apply Hno. by constructor.
Qed.

Lemma mysql_resolve_missing (b : Backend) (table_name : json) (schemas : list string) :
  in_no_schema b table_name → introspection_ok b schemas →
  MySQL.find_schema b table_name schemas = Ok None.
Proof.
  intros Hno (Hi & Hs & Ht). apply mysql_find_schema_missing; [done|].
  intros s Hin. specialize (Ht s Hin).
  destruct (get_table_names b s) as [tables|e] eqn:Hts; [|done].
  exists tables. split; [done|]. by eapply Hno.
Qed.

(** C9, as the code has it.  For a table name that no schema has,
    [fetch_schema_name] of the MSSQL application returns [None], also when
    introspection raises; in the MySQL application [get_schemas] answers with
    the list of schemas and the schema loop ends with [None] when
    introspection answers. *)
Theorem resolve_missing_table (b : Backend) (table_name : json) :
  in_no_schema b table_name →
  MSSQL.fetch_schema_name b table_name = Ok None
  ∧ ∀ schemas, introspection_ok b schemas →
      MySQL.get_schemas b = (MySQL.SchemasOk schemas, 200)
      ∧ MySQL.find_schema b table_name schemas = Ok None.
Proof.
  intros Hno. split; [by apply mssql_fetch_missing|].
  intros schemas Hok. split; [by apply mysql_get_schemas_ok|].
  by apply mysql_resolve_missing.
Qed.

Lemma company_db_no_ghost (pk_col : string) (written : result Z) :
  in_no_schema (company_db pk_col written) (JStr "Ghost").
Proof.
  intros schemas s tables [= <-] Hin. simpl.
  repeat (apply elem_of_cons in Hin as [->|Hin]); simpl.
  - by intros [= <-].
  - by intros [= <-].
  - by apply elem_of_nil in Hin.
Qed.

Lemma company_db_introspection (pk_col : string) (written : result Z) :
  introspection_ok (company_db pk_col written) ["dbo"; "hr"].
Proof.
  repeat split. intros s Hin.
  repeat (apply elem_of_cons in Hin as [->|Hin]); [done..|].
  by apply elem_of_nil in Hin.
Qed.

Lemma flaky_db_no_ghost : in_no_schema flaky_db (JStr "Ghost").
Proof. by intros schemas s tables _ _ Ht. Qed.

Lemma resolve_missing_table_witness :
  MSSQL.fetch_schema_name (company_db "id" (Ok 1)) (JStr "Ghost") = Ok None
  ∧ ∀ schemas, introspection_ok (company_db "id" (Ok 1)) schemas →
      MySQL.get_schemas (company_db "id" (Ok 1)) = (MySQL.SchemasOk schemas, 200)
      ∧ MySQL.find_schema (company_db "id" (Ok 1)) (JStr "Ghost") schemas = Ok None.
Proof.
  apply (resolve_missing_table (company_db "id" (Ok 1)) (JStr "Ghost")).
  apply company_db_no_ghost.
Defined.

(** In the MySQL application an exception of [get_table_names] leaves
    [table_exists_in_schema] and the schema loop: the lookup of a table that
    no schema has raises, and the view answers 500. *)
Lemma resolve_missing_table_mysql_raises :
  in_no_schema flaky_db (JStr "Ghost")
  ∧ MySQL.get_schemas flaky_db = (MySQL.SchemasOk ["dbo"; "hr"], 200)
  ∧ MySQL.table_exists_in_schema flaky_db "dbo" (JStr "Ghost") = Raise connection_lost
  ∧ MySQL.find_schema flaky_db (JStr "Ghost") ["dbo"; "hr"] = Raise connection_lost
  ∧ MySQL.find_schema flaky_db (JStr "Ghost") ["dbo"; "hr"] ≠ Ok None
  ∧ status_of (MySQL.read_table flaky_db read_ghost start) = Some 500.
Proof. split; [apply flaky_db_no_ghost|]. by vm_compute. Qed.

(** ** Requests that name a table no schema has *)

Lemma provided_get (keys : list string) (fields : list (string * json)) (k : string) :
  provided keys fields → k ∈ keys → truthy (dict_get k fields) = true.
Proof. intros H. apply H. Qed.

Lemma present_lookup (keys : list string) (fields : list (string * json)) (k : string) :
  present keys fields → k ∈ keys → dict_lookup k fields = Some (dict_get k fields).
Proof.
  intros H Hk. destruct (H k Hk) as [v Hv]. unfold dict_get. by rewrite Hv.
Qed.

Lemma present_truthy (keys : list string) (fields : list (string * json)) (k : string) :
  present keys fields → k ∈ keys → truthy (JObj fields) = true.
Proof.
  intros H Hk. destruct (H k Hk) as [v Hv]. by destruct fields.
Qed.

Ltac in_keys := solve [repeat constructor].

Ltac use_provided H :=
  repeat match goal with
  | |- context [truthy (dict_get ?k ?fields)] =>
      rewrite (provided_get _ fields k H) by in_keys
  end.

Ltac use_present H :=
  repeat match goal with
  | |- context [dict_lookup ?k ?fields] =>
      rewrite (present_lookup _ fields k H) by in_keys
  end.

Section UnknownTable.
Variable b : Backend.
Variable fields : list (string * json).
Variable st : State.
Let table_name : json := dict_get "table_name" fields.
Hypothesis Hno : in_no_schema b table_name.

Lemma mssql_read_unknown :
  provided ["table_name"] fields →
  MSSQL.read_table b (JObj fields) st = (Ok (MSSQL.schema_not_found table_name), st).
Proof.
  intros H. unfold MSSQL.read_table, bind, lift, ret. simpl. use_provided H. simpl.
  fold table_name. by rewrite (mssql_fetch_missing b table_name Hno).
Qed.

Lemma mssql_add_unknown :
  provided ["table_name"; "table_data"] fields →
  MSSQL.add_record b (JObj fields) st = (Ok (MSSQL.schema_not_found table_name), st).
Proof.
  intros H. unfold MSSQL.add_record, bind, lift, ret. simpl. use_provided H. simpl.
  fold table_name. by rewrite (mssql_fetch_missing b table_name Hno).
Qed.

Lemma mssql_update_unknown :
  provided ["table_name"; "pk"; "update_data"] fields →
  MSSQL.update_record b (JObj fields) st = (Ok (MSSQL.schema_not_found table_name), st).
Proof.
  intros H. unfold MSSQL.update_record, bind, lift, ret. simpl. use_provided H. simpl.
  fold table_name. by rewrite (mssql_fetch_missing b table_name Hno).
Qed.

Lemma mssql_delete_unknown :
  provided ["table_name"; "pk"] fields →
  MSSQL.delete_record b (JObj fields) st = (Ok (MSSQL.schema_not_found table_name), st).
Proof.
  intros H. unfold MSSQL.delete_record, bind, lift, ret. simpl. use_provided H. simpl.
  fold table_name. by rewrite (mssql_fetch_missing b table_name Hno).
Qed.

Variable schemas : list string.
Hypothesis Hok : introspection_ok b schemas.

Lemma mysql_with_schema_unknown (k : string → M response) :
  MySQL.with_schema b table_name k st = (Raise (MySQL.no_such_table table_name), st).
Proof.
  unfold MySQL.with_schema. rewrite (mysql_get_schemas_ok b schemas Hok). simpl.
  unfold bind, lift. by rewrite (mysql_resolve_missing b table_name schemas Hno Hok).
Qed.

Lemma mysql_read_unknown :
  present ["table_name"] fields →
  MySQL.read_table b (JObj fields) st = (Ok (table_missing_400 table_name), st).
Proof.
  intros H. unfold MySQL.read_table, try_catch, bind, lift, MySQL.invalid.
  rewrite (present_truthy _ _ "table_name" H) by in_keys. simpl.
  use_present H. simpl. use_present H. fold table_name.
  by rewrite mysql_with_schema_unknown.
Qed.

Lemma mysql_add_unknown :
  present ["table_name"; "table_data"] fields →
  MySQL.add_record b (JObj fields) st = (Ok (table_missing_400 table_name), st).
Proof.
  intros H. unfold MySQL.add_record, try_catch, bind, lift, MySQL.invalid.
  rewrite (present_truthy _ _ "table_name" H) by in_keys. simpl.
  use_present H. simpl. use_present H. fold table_name.
  by rewrite mysql_with_schema_unknown.
Qed.

Lemma mysql_update_unknown :
  present ["table_name"; "pk"; "update_data"] fields →
  MySQL.update_record b (JObj fields) st = (Ok (table_missing_400 table_name), st).
Proof.
  intros H. unfold MySQL.update_record, try_catch, bind, lift, MySQL.invalid.
  rewrite (present_truthy _ _ "table_name" H) by in_keys. simpl.
  use_present H. simpl. use_present H. fold table_name.
  by rewrite mysql_with_schema_unknown.
Qed.

Lemma mysql_delete_unknown :
  present ["table_name"; "pk"] fields →
  MySQL.delete_record b (JObj fields) st = (Ok (table_missing_400 table_name), st).
Proof.
  intros H. unfold MySQL.delete_record, try_catch, bind, lift, MySQL.invalid.
  rewrite (present_truthy _ _ "table_name" H) by in_keys. simpl.
  use_present H. simpl. use_present H. fold table_name.
  by rewrite mysql_with_schema_unknown.
Qed.

End UnknownTable.

(** C2, as the code has it.  A request that gives the fields its view
    requires and names a table no schema has is answered with 404 by the
    four views of the MSSQL application, and with 400 by the four views of
    the MySQL application, whose [ValueError] for the missing table is
    turned into a 400; no state is touched. *)
Theorem unknown_table_response (b : Backend) (fields : list (string * json)) (st : State) :
  in_no_schema b (dict_get "table_name" fields) →
  let table_name := dict_get "table_name" fields in
  let not_found := (Ok (MSSQL.schema_not_found table_name), st) in
  let bad_request := (Ok (table_missing_400 table_name), st) in
  status (MSSQL.schema_not_found table_name) = 404
  ∧ status (table_missing_400 table_name) = 400
  ∧ (provided ["table_name"] fields → MSSQL.read_table b (JObj fields) st = not_found)
  ∧ (provided ["table_name"; "table_data"] fields →
     MSSQL.add_record b (JObj fields) st = not_found)
  ∧ (provided ["table_name"; "pk"; "update_data"] fields →
     MSSQL.update_record b (JObj fields) st = not_found)
  ∧ (provided ["table_name"; "pk"] fields →
     MSSQL.delete_record b (JObj fields) st = not_found)
  ∧ ∀ schemas, introspection_ok b schemas →
      (present ["table_name"] fields → MySQL.read_table b (JObj fields) st = bad_request)
      ∧ (present ["table_name"; "table_data"] fields →
         MySQL.add_record b (JObj fields) st = bad_request)
      ∧ (present ["table_name"; "pk"; "update_data"] fields →
         MySQL.update_record b (JObj fields) st = bad_request)
      ∧ (present ["table_name"; "pk"] fields →
         MySQL.delete_record b (JObj fields) st = bad_request).
Proof.
  intros Hno. simpl. repeat split.
  - by apply mssql_read_unknown.
  - by apply mssql_add_unknown.
  - by apply mssql_update_unknown.
  - by apply mssql_delete_unknown.
  - by eapply mysql_read_unknown.
  - by eapply mysql_add_unknown.
  - by eapply mysql_update_unknown.
  - by eapply mysql_delete_unknown.
Qed.

Lemma unknown_table_response_witness :
  MSSQL.read_table (company_db "id" (Ok 1)) read_ghost start
  = (Ok (MSSQL.schema_not_found (JStr "Ghost")), start)
  ∧ MySQL.read_table (company_db "id" (Ok 1)) read_ghost start
    = (Ok (table_missing_400 (JStr "Ghost")), start).
Proof.
  pose proof (unknown_table_response (company_db "id" (Ok 1))
                [("table_name", JStr "Ghost")] start
                (company_db_no_ghost "id" (Ok 1))) as H.
  simpl in H. destruct H as (_ & _ & Hms & _ & _ & _ & Hmy). split.
  - apply Hms. intros k Hk. apply list_elem_of_singleton in Hk as ->. reflexivity.
  - apply (Hmy ["dbo"; "hr"] (company_db_introspection "id" (Ok 1))).
    intros k Hk. apply list_elem_of_singleton in Hk as ->. by eexists.
Defined.

(** The MySQL application answers a read of a table that no schema has with
    400, not 404. *)
Lemma unknown_table_mysql_400 :
  in_no_schema (company_db "id" (Ok 1)) (JStr "Ghost")
  ∧ status_of (MySQL.read_table (company_db "id" (Ok 1)) read_ghost start) = Some 400
  ∧ status_of (MySQL.read_table (company_db "id" (Ok 1)) read_ghost start) ≠ Some 404.
Proof. split; [apply company_db_no_ghost|]. by vm_compute. Qed.

(** ** Validation of the request fields *)

(** C10. The MSSQL views [update_record] and [delete_record] answer a
    request whose [pk] is false in Python (absent, [None], [0], [0.0], the
    empty string, [False], an empty list or dict) with 400, whatever the
    database holds, and touch neither the registry nor the session. *)
Theorem mssql_falsy_pk_rejected (b : Backend) (fields : list (string * json)) (st : State) :
  truthy (dict_get "pk" fields) = false →
  MSSQL.update_record b (JObj fields) st = (Ok mssql_update_missing, st)
  ∧ MSSQL.delete_record b (JObj fields) st = (Ok mssql_delete_missing, st)
  ∧ status mssql_update_missing = 400 ∧ status mssql_delete_missing = 400.
Proof.
  intros Hpk. unfold MSSQL.update_record, MSSQL.delete_record, bind, lift, ret. simpl.
  rewrite Hpk. simpl. rewrite !orb_true_r. done.
Qed.

Lemma mssql_falsy_pk_rejected_witness :
  let zero := [("table_name", JStr "Employees"); ("pk", JInt 0);
               ("update_data", JObj [("name", JStr "Anna")])] in
  let empty := [("table_name", JStr "Employees"); ("pk", JStr "")] in
  MSSQL.update_record (company_db "id" (Ok 1)) (JObj zero) start
  = (Ok mssql_update_missing, start)
  ∧ MSSQL.delete_record (company_db "id" (Ok 1)) (JObj empty) start
    = (Ok mssql_delete_missing, start).
Proof.
  intros zero empty. split.
  - apply (mssql_falsy_pk_rejected (company_db "id" (Ok 1)) zero start). reflexivity.
  - apply (mssql_falsy_pk_rejected (company_db "id" (Ok 1)) empty start). reflexivity.
Defined.

(** A body that is a JSON object without [table_name] is answered with 400
    and an ["error"] field by every view of both applications. *)
Lemma object_without_table_name (b : Backend) (fields : list (string * json)) (st : State) :
  dict_lookup "table_name" fields = None →
  bad_request (MSSQL.read_table b (JObj fields) st) st
  ∧ bad_request (MSSQL.add_record b (JObj fields) st) st
  ∧ bad_request (MSSQL.update_record b (JObj fields) st) st
  ∧ bad_request (MSSQL.delete_record b (JObj fields) st) st
  ∧ bad_request (MySQL.read_table b (JObj fields) st) st
  ∧ bad_request (MySQL.add_record b (JObj fields) st) st
  ∧ bad_request (MySQL.update_record b (JObj fields) st) st
  ∧ bad_request (MySQL.delete_record b (JObj fields) st) st.
Proof.
  intros Hn.
  assert (Hmy : ∀ keys, MySQL.invalid ("table_name" :: keys) (JObj fields) = Ok true).
  { intros keys. unfold MySQL.invalid. destruct (truthy (JObj fields)); [|done].
    simpl. by rewrite Hn. }
  repeat split.
  1-4: unfold MSSQL.read_table, MSSQL.add_record, MSSQL.update_record,
         MSSQL.delete_record, bind, lift, ret; simpl;
       unfold dict_get at 1; rewrite Hn; simpl; by eexists.
  all: unfold MySQL.read_table, MySQL.add_record, MySQL.update_record,
         MySQL.delete_record, try_catch, bind, lift; rewrite Hmy; simpl; by eexists.
Qed.

(** C6 at bodies that are not objects.  The MySQL view [read_table] answers
    the body [5] and the body [["table_name"]] with 500; the MSSQL view
    raises [AttributeError] on the body [[]], which Flask answers with
    500. *)
Theorem non_object_body_500 (b : Backend) (st : State) :
  status_of (MySQL.read_table b (JInt 5) st) = Some 500
  ∧ status_of (MySQL.read_table b (JArr [JStr "table_name"]) st) = Some 500
  ∧ answer (MSSQL.read_table b (JArr []) st)
    = Raise (Exception "AttributeError" [Lit "object has no attribute 'get'"]).
Proof. done. Qed.

(** ** Empty payload of an insert *)

(** The MSSQL view rejects a payload that is absent or empty; the MySQL
    view rejects a payload that is absent. *)
Lemma mssql_add_without_payload (b : Backend) (fields : list (string * json)) (st : State) :
  truthy (dict_get "table_data" fields) = false →
  bad_request (MSSQL.add_record b (JObj fields) st) st.
Proof.
  intros Hd. unfold MSSQL.add_record, bind, lift, ret. simpl. rewrite Hd, orb_true_r.
  by eexists.
Qed.

Lemma mysql_add_absent_payload (b : Backend) (fields : list (string * json)) (st : State) :
  dict_lookup "table_data" fields = None →
  bad_request (MySQL.add_record b (JObj fields) st) st.
Proof.
  intros Hn.
  assert (MySQL.invalid ["table_name"; "table_data"] (JObj fields) = Ok true) as Hi.
  { unfold MySQL.invalid. destruct (truthy (JObj fields)); [|done]. simpl.
    destruct (dict_lookup "table_name" fields); simpl; [|done]. by rewrite Hn. }
  unfold MySQL.add_record, try_catch, bind, lift. rewrite Hi. simpl. by eexists.
Qed.

(** C7 at the empty payload.  The MySQL view [add_record] builds an insert
    with no values from the payload [{}], executes and commits it, and
    answers 200. *)
Theorem mysql_add_empty_payload_executes :
  truthy (JObj []) = false
  ∧ MySQL.add_record (company_db "id" (Ok 1)) add_nothing start
    = (Ok (MySQL.message_response "Record added successfully"),
       mkState ∅ [EvConnect; EvExecute (Insert (employees "id") (JObj []));
                  EvCommit; EvClose])
  ∧ status_of (MySQL.add_record (company_db "id" (Ok 1)) add_nothing start) = Some 200
  ∧ status_of (MSSQL.add_record (company_db "id" (Ok 1)) add_nothing start) = Some 400.
Proof. by vm_compute. Qed.

(** ** Tables without a primary key *)

Lemma mysql_pk_unresolved (b : Backend) (schema : string) (table_name : json) :
  inspect_engine b = Ok tt → primary_key_unresolved b schema table_name →
  ∃ r, MySQL.get_primary_key_column b schema table_name = Ok r ∧ str_truthy r = false.
Proof.
  intros Hi Hun. unfold MySQL.get_primary_key_column. rewrite Hi. simpl.
  destruct table_name as [| | | |name| |]; simpl; try by exists None.
  destruct (get_pk_constraint b name schema) as [[|col rest]|e] eqn:Hpk; simpl;
    try by exists None.
  exists (Some col). split; [done|]. by rewrite (Hun name col rest eq_refl Hpk).
Qed.

Section MissingPrimaryKey.
Variable b : Backend.
Variable fields : list (string * json).
Variable st : State.
Variable schemas : list string.
Variable s : string.
Let table_name : json := dict_get "table_name" fields.
Hypothesis Hschemas : MySQL.get_schemas b = (MySQL.SchemasOk schemas, 200).
Hypothesis Hfound : MySQL.find_schema b table_name schemas = Ok (Some s).
Hypothesis Hs : s ≠ "".
Hypothesis Hun : primary_key_unresolved b s table_name.

Lemma mysql_with_schema_found (k : string → M response) :
  MySQL.with_schema b table_name k st = k s st.
Proof.
  unfold MySQL.with_schema. rewrite Hschemas. simpl. unfold bind, lift.
  rewrite Hfound. simpl. by apply String.eqb_neq in Hs as ->.
Qed.

Lemma mysql_with_primary_key_unresolved (k : string → M response) :
  MySQL.with_primary_key b s table_name k st = (Raise (MySQL.no_primary_key table_name), st).
Proof.
  unfold MySQL.with_primary_key, bind, lift.
  apply mysql_find_schema_spec in Hfound as [Hi _].
  destruct (mysql_pk_unresolved b s table_name Hi Hun) as (r & -> & Hr).
  by rewrite Hr.
Qed.

Lemma mysql_update_without_pk :
  present ["table_name"; "pk"; "update_data"] fields →
  MySQL.update_record b (JObj fields) st = (Ok (primary_key_missing_400 table_name), st).
Proof.
  intros H. unfold MySQL.update_record, try_catch, bind, lift, MySQL.invalid.
  rewrite (present_truthy _ _ "table_name" H) by in_keys. simpl.
  use_present H. simpl. use_present H. fold table_name.
  by rewrite mysql_with_schema_found, mysql_with_primary_key_unresolved.
Qed.

Lemma mysql_delete_without_pk :
  present ["table_name"; "pk"] fields →
  MySQL.delete_record b (JObj fields) st = (Ok (primary_key_missing_400 table_name), st).
Proof.
  intros H. unfold MySQL.delete_record, try_catch, bind, lift, MySQL.invalid.
  rewrite (present_truthy _ _ "table_name" H) by in_keys. simpl.
  use_present H. simpl. use_present H. fold table_name.
  by rewrite mysql_with_schema_found, mysql_with_primary_key_unresolved.
Qed.

End MissingPrimaryKey.

(** C8, as the code has it.  When the schema of the table is found and its
    primary key cannot be resolved, the MySQL views [update_record] and
    [delete_record] answer 400 with the error of the missing primary key,
    and neither open a connection nor execute a statement. *)
Theorem mysql_missing_primary_key (b : Backend) (fields : list (string * json))
    (st : State) (schemas : list string) (s : string) :
  let table_name := dict_get "table_name" fields in
  MySQL.get_schemas b = (MySQL.SchemasOk schemas, 200) →
  MySQL.find_schema b table_name schemas = Ok (Some s) →
  s ≠ "" →
  primary_key_unresolved b s table_name →
  status (primary_key_missing_400 table_name) = 400
  ∧ (present ["table_name"; "pk"; "update_data"] fields →
     MySQL.update_record b (JObj fields) st = (Ok (primary_key_missing_400 table_name), st))
  ∧ (present ["table_name"; "pk"] fields →
     MySQL.delete_record b (JObj fields) st = (Ok (primary_key_missing_400 table_name), st)).
Proof.
  intros table_name Hsch Hf Hs Hun. repeat split.
  - by eapply mysql_update_without_pk.
  - by eapply mysql_delete_without_pk.
Qed.

Lemma logs_pk_unresolved : primary_key_unresolved (company_db "id" (Ok 1)) "dbo" (JStr "Logs").
Proof. intros name col rest [= <-]. simpl. discriminate. Qed.

Lemma mysql_missing_primary_key_witness :
  MySQL.update_record (company_db "id" (Ok 1)) update_log start
  = (Ok (primary_key_missing_400 (JStr "Logs")), start).
Proof.
  pose proof (mysql_missing_primary_key (company_db "id" (Ok 1))
                [("table_name", JStr "Logs"); ("pk", JInt 1);
                 ("update_data", JObj [("line", JStr "x")])]
                start ["dbo"; "hr"] "dbo") as H.
  simpl in H. destruct (H eq_refl eq_refl) as (_ & Hup & _).
  - discriminate.
  - apply logs_pk_unresolved.
  - apply Hup. intros k Hk.
    repeat (apply elem_of_cons in Hk as [->|Hk]); [by eexists..|].
    by apply elem_of_nil in Hk.
Defined.

(** An update of a table without a primary key is answered with 400 by the
    MySQL application and with 500 by the MSSQL application, not with
    404. *)
Lemma missing_primary_key_not_404 :
  primary_key_unresolved (company_db "id" (Ok 1)) "dbo" (JStr "Logs")
  ∧ MSSQL.fetch_schema_name (company_db "id" (Ok 1)) (JStr "Logs") = Ok (Some "dbo")
  ∧ status_of (MySQL.update_record (company_db "id" (Ok 1)) update_log start) = Some 400
  ∧ status_of (MSSQL.update_record (company_db "id" (Ok 1)) update_log start) = Some 500
  ∧ status_of (MySQL.update_record (company_db "id" (Ok 1)) update_log start) ≠ Some 404.
Proof. split; [apply logs_pk_unresolved|]. by vm_compute. Qed.

(** ** Runs that only add to the trace *)

Lemma state_eta (s : State) : mkState (metadata s) (log s ++ []) = s.
Proof. destruct s. simpl. by rewrite app_nil_r. Qed.

Lemma post_lift {A} (r : result A) (P : result A → list event → Prop) :
  P r [] → post (lift r) P.
Proof. intros HP. exists r, []. split; [|done]. intros s. unfold lift. by rewrite state_eta. Qed.

Lemma post_ret {A} (a : A) (P : result A → list event → Prop) :
  P (Ok a) [] → post (ret a) P.
Proof. apply (post_lift (Ok a)). Qed.

Lemma post_raise {A} (e : exn) (P : result A → list event → Prop) :
  P (Raise e) [] → post (raise e) P.
Proof. apply (post_lift (Raise e)). Qed.

Lemma post_emit (ev : event) (P : result unit → list event → Prop) :
  P (Ok tt) [ev] → post (emit ev) P.
Proof. intros HP. by exists (Ok tt), [ev]. Qed.

Lemma post_bind {A B} (m : M A) (k : A → M B) (P : result B → list event → Prop) :
  post m (λ r evs,
    match r with
    | Ok a => post (k a) (λ r' evs', P r' (evs ++ evs'))
    | Raise e => P (Raise e) evs
    end) →
  post (bind m k) P.
Proof.
  intros (r & evs & Hm & HP). destruct r as [a|e].
  - destruct HP as (r' & evs' & Hk & HP). exists r', (evs ++ evs'). split; [|done].
    intros s. unfold bind. rewrite Hm, Hk. simpl. by rewrite app_assoc.
  - exists (Raise e), evs. split; [|done]. intros s. unfold bind. by rewrite Hm.
Qed.

Lemma post_try_catch {A} (m : M A) (h : exn → M A) (P : result A → list event → Prop) :
  post m (λ r evs,
    match r with
    | Ok a => P (Ok a) evs
    | Raise e => post (h e) (λ r' evs', P r' (evs ++ evs'))
    end) →
  post (try_catch m h) P.
Proof.
  intros (r & evs & Hm & HP). destruct r as [a|e].
  - exists (Ok a), evs. split; [|done]. intros s. unfold try_catch. by rewrite Hm.
  - destruct HP as (r' & evs' & Hh & HP). exists r', (evs ++ evs'). split; [|done].
    intros s. unfold try_catch. rewrite Hm, Hh. simpl. by rewrite app_assoc.
Qed.

Ltac post_step :=
  first
    [ apply post_try_catch
    | apply post_bind
    | apply post_ret
    | apply post_raise
    | apply post_emit
    | apply post_lift
    | match goal with
      | |- post (if ?c then _ else _) _ => destruct c eqn:?
      | |- post (match ?x with _ => _ end) _ => destruct x eqn:?
      | |- match ?r with _ => _ end => destruct r eqn:?
      end
    | progress unfold MySQL.with_schema, MySQL.with_primary_key, MySQL.engine_connect,
        MySQL.conn_execute_select, MySQL.conn_execute, MySQL.conn_commit,
        MySQL.conn_close, MySQL.handlers
    | progress cbn beta iota ].

Ltac post_all := repeat post_step.

(** ** Connections *)

Lemma open_connections_app (l1 l2 : list event) :
  open_connections (l1 ++ l2) = open_connections l1 + open_connections l2.
Proof.
  induction l1 as [|ev l1 IH]; simpl; [lia|]. destruct ev; rewrite ?IH; lia.
Qed.

Ltac read_leaf :=
  simpl; unfold read_trace;
  first
    [ left; reflexivity
    | right; left; eexists; split; [reflexivity|];
      match goal with H : execute_select _ _ = _ |- _ => by rewrite H end
    | right; right; do 2 eexists; split; [reflexivity|];
      match goal with H : execute_select _ _ = _ |- _ => by rewrite H end ].

Lemma mysql_read_post (b : Backend) (data : json) :
  post (MySQL.read_table b data) (read_trace b).
Proof. unfold MySQL.read_table. post_all; read_leaf. Qed.

(** In every state the trace of [read_table] grows as [read_trace] says. *)
Lemma mysql_read_trace (b : Backend) (data : json) (st : State) :
  ∃ evs, trace (MySQL.read_table b data st) = log st ++ evs
         ∧ read_trace b (answer (MySQL.read_table b data st)) evs
         ∧ open_connections (trace (MySQL.read_table b data st))
           = open_connections (log st) + open_connections evs.
Proof.
  destruct (mysql_read_post b data) as (r & evs & Hm & HP).
  exists evs. unfold trace, answer. rewrite Hm. simpl.
  by rewrite open_connections_app.
Qed.

(** C4 at a select that raises.  The MySQL view [read_table] opens a
    connection, the select raises, and the view answers 500 without closing
    the connection; [add_record] does the same when its insert raises. *)
Theorem mysql_connection_left_open :
  MySQL.read_table failing_select_db read_employees start
  = (Ok (BDict [("error", Text [Lit "Failed to read table"]);
                ("details", Text [Lit "connection lost"])], 500),
     mkState ∅ [EvConnect; EvExecute (Select (employees "id"))])
  ∧ open_connections (trace (MySQL.read_table failing_select_db read_employees start)) = 1
  ∧ trace (MySQL.add_record (company_db "id" (Raise connection_lost)) add_ann start)
    = [EvConnect; EvExecute (Insert (employees "id") (JObj [("id", JInt 1); ("name", JStr "Ann")]))]
  ∧ open_connections
      (trace (MySQL.add_record (company_db "id" (Raise connection_lost)) add_ann start)) = 1
  ∧ open_connections (trace (MySQL.read_table (company_db "id" (Ok 1)) read_employees start))
    = 0.
Proof. by vm_compute. Qed.

(** ** Writes that affect no row *)

Ltac rowcount_leaf :=
  simpl; intros stmt Hevs; try discriminate Hevs;
  injection Hevs as <-;
  match goal with
  | H : execute_dml _ _ = Ok ?n, Hz : (?n =? 0) = _ |- _ =>
      exists n; eexists; rewrite Hz; by repeat split
  end.

(** The MySQL views [update_record] and [delete_record] answer by the
    number of rows the executed statement affected: 404 for none. *)
Lemma mysql_update_post (b : Backend) (data : json) :
  post (MySQL.update_record b data) (rowcount_decides b).
Proof. unfold MySQL.update_record. post_all; rowcount_leaf. Qed.

Lemma mysql_delete_post (b : Backend) (data : json) :
  post (MySQL.delete_record b data) (rowcount_decides b).
Proof. unfold MySQL.delete_record. post_all; rowcount_leaf. Qed.

Lemma mysql_zero_rows_not_found (b : Backend) (data : json) (st : State) (stmt : Statement) :
  execute_dml b stmt = Ok 0 →
  (trace (MySQL.update_record b data st)
   = log st ++ [EvConnect; EvExecute stmt; EvCommit; EvClose] →
   status_of (MySQL.update_record b data st) = Some 404)
  ∧ (trace (MySQL.delete_record b data st)
     = log st ++ [EvConnect; EvExecute stmt; EvCommit; EvClose] →
     status_of (MySQL.delete_record b data st) = Some 404).
Proof.
  intros Hz. split.
  - destruct (mysql_update_post b data) as (r & evs & Hm & HP).
    unfold trace, status_of. rewrite Hm. simpl. intros Heq%app_inv_head.
    destruct (HP stmt Heq) as (n & resp & Hn & -> & Hst).
    rewrite Hz in Hn. injection Hn as <-. by rewrite Hst.
  - destruct (mysql_delete_post b data) as (r & evs & Hm & HP).
    unfold trace, status_of. rewrite Hm. simpl. intros Heq%app_inv_head.
    destruct (HP stmt Heq) as (n & resp & Hn & -> & Hst).
    rewrite Hz in Hn. injection Hn as <-. by rewrite Hst.
Qed.

(** C1 at an update and a delete that affect no row.  The statement is
    executed and committed and reports no affected row; the MSSQL views
    answer 200 with the message of success, where the MySQL views answer
    404. *)
Theorem mssql_zero_rows_reported_success :
  let db := company_db "id" (Ok 0) in
  let update := Update (employees "id") "id" (JInt 1) (JObj [("name", JStr "Anna")]) in
  let delete := Delete (employees "id") "id" (JInt 1) in
  execute_dml db update = Ok 0
  ∧ execute_dml db delete = Ok 0
  ∧ answer (MSSQL.update_record db update_ann start)
    = Ok (MSSQL.message_body "Record updated successfully", 200)
  ∧ trace (MSSQL.update_record db update_ann start)
    = [EvSessionExecute update; EvSessionCommit]
  ∧ answer (MSSQL.delete_record db delete_ann start)
    = Ok (MSSQL.message_body "Record deleted successfully", 200)
  ∧ trace (MSSQL.delete_record db delete_ann start)
    = [EvSessionExecute delete; EvSessionCommit]
  ∧ status_of (MySQL.update_record db update_ann start) = Some 404
  ∧ status_of (MySQL.delete_record db delete_ann start) = Some 404.
Proof. by vm_compute. Qed.

(** ** The lifetime of table metadata *)

Lemma mysql_views_per_request (b : Backend) (data : json) :
  per_request (MySQL.read_table b data)
  ∧ per_request (MySQL.add_record b data)
  ∧ per_request (MySQL.update_record b data)
  ∧ per_request (MySQL.delete_record b data).
Proof.
  unfold per_request, MySQL.read_table, MySQL.add_record, MySQL.update_record,
    MySQL.delete_record.
  repeat split; post_all; done.
Qed.

Lemma table_fresh_reflects (b : Backend) (name schema : string) :
  MySQL.Table_fresh b (JStr name) schema
  = rbind (reflect_table b schema name) (λ cp, Ok (mkTable name schema cp.1 cp.2)).
Proof.
  unfold MySQL.Table_fresh, Table_new. simpl. rewrite lookup_empty.
  by destruct (reflect_table b schema name) as [[cols pk]|e].
Qed.

Lemma table_shared_registered (b : Backend) (name schema : string) (s : State) (t : Table) :
  metadata s !! _get_table_key name schema = Some t →
  MSSQL.Table_shared b (JStr name) schema s = (Ok t, s).
Proof.
  intros Hk. unfold MSSQL.Table_shared, Table_new. simpl. rewrite Hk. by destruct s.
Qed.

Lemma table_shared_new (b : Backend) (name schema : string) (s : State) :
  metadata s !! _get_table_key name schema = None →
  MSSQL.Table_shared b (JStr name) schema s
  = match reflect_table b schema name with
    | Ok cp =>
        let t := mkTable name schema cp.1 cp.2 in
        (Ok t, mkState (<[_get_table_key name schema := t]> (metadata s)) (log s))
    | Raise e => (Raise e, s)
    end.
Proof.
  intros Hk. unfold MSSQL.Table_shared, Table_new. simpl. rewrite Hk.
  destruct (reflect_table b schema name) as [[cols pk]|e]; [done|]. by destruct s.
Qed.


(** ** The views of the MySQL application, step by step *)

Lemma get_schemas_cases (b : Backend) (r : MySQL.schemas_response) (z : Z) :
  MySQL.get_schemas b = (r, z) →
  (z = 200 ∧ ∃ schemas, r = MySQL.SchemasOk schemas
                         ∧ inspect_engine b = Ok tt ∧ get_schema_names b = Ok schemas)
  ∨ (z = 500 ∧ ∃ err, r = MySQL.SchemasError err).
Proof.
  unfold MySQL.get_schemas. destruct (inspect_engine b) as [[]|e]; simpl.
  - destruct (get_schema_names b) as [schemas|e]; intros [= <- <-]; eauto 10.
  - intros [= <- <-]. eauto.
Qed.

Lemma str_truthy_inv (o : option string) :
  str_truthy o = true → ∃ s, o = Some s ∧ s ≠ "".
Proof.
  destruct o as [s|]; simpl; [|done]. intros H. exists s. split; [done|].
  intros ->. done.
Qed.

Lemma pk_column_inv (b : Backend) (schema : string) (table_name : json) (col : string) :
  MySQL.get_primary_key_column b schema table_name = Ok (Some col) →
  ∃ name rest, table_name = JStr name ∧ get_pk_constraint b name schema = Ok (col :: rest).
Proof.
  unfold MySQL.get_primary_key_column.
  destruct (inspect_engine b) as [[]|e]; simpl; [|done].
  destruct table_name as [| | | |name| |]; simpl; try discriminate.
  destruct (get_pk_constraint b name schema) as [[|c rest]|e] eqn:Hpk; simpl;
    try discriminate.
  intros [= ->]. eauto.
Qed.

Lemma table_fresh_inv (b : Backend) (table_name : json) (schema : string) (t : Table) :
  MySQL.Table_fresh b table_name schema = Ok t →
  table_name = JStr (t_name t) ∧ t_schema t = schema
  ∧ reflect_table b schema (t_name t) = Ok (t_columns t, t_primary_key t).
Proof.
  unfold MySQL.Table_fresh, Table_new.
  destruct table_name as [| | | |name| |]; simpl; try done.
  rewrite lookup_empty.
  destruct (reflect_table b schema name) as [[cols pk]|e] eqn:Hr; simpl; [|done].
  intros [= <-]. simpl. by rewrite Hr.
Qed.

Lemma column_inv (t : Table) (name col : string) :
  column t name = Ok col → col = name ∧ name ∈ t_columns t.
Proof.
  unfold column. case_bool_decide; [|done]. by intros [= <-].
Qed.

Lemma values_positional_inv (data values : json) :
  values_positional data = Ok values → values = data.
Proof. destruct data; simpl; try done; by intros [= <-]. Qed.

(** The lookup of the schema, as a rule: the view answers 500 when the
    schemas cannot be listed, raises when the lookup raises or finds no
    schema, and goes on with the first schema that has the table. *)
Lemma post_with_schema (b : Backend) (table_name : json) (k : string → M response)
    (P : result response → list event → Prop) :
  (∀ err, P (Ok (BDict [("error", Text err)], 500)) []) →
  (∀ e, P (Raise e) []) →
  (∀ schemas s,
     inspect_engine b = Ok tt → get_schema_names b = Ok schemas →
     first_match b table_name schemas s → s ≠ "" → post (k s) P) →
  post (MySQL.with_schema b table_name k) P.
Proof.
  intros Herr Hraise Hk. unfold MySQL.with_schema.
  destruct (MySQL.get_schemas b) as [r z] eqn:Hg.
  apply get_schemas_cases in Hg as [(-> & schemas & -> & Hi & Hs)|(-> & err & ->)]; simpl.
  - apply post_bind, post_lift.
    destruct (MySQL.find_schema b table_name schemas) as [o|e] eqn:Hf; [|apply Hraise].
    destruct (str_truthy o) eqn:Ho; simpl; [|apply post_raise, Hraise].
    apply str_truthy_inv in Ho as (s & -> & Hne). simpl.
    apply mysql_find_schema_spec in Hf as [_ Hf]. by eapply Hk.
  - apply post_ret, Herr.
Qed.

Lemma post_with_primary_key (b : Backend) (schema : string) (table_name : json)
    (k : string → M response) (P : result response → list event → Prop) :
  (∀ e, P (Raise e) []) →
  (∀ name col rest,
     table_name = JStr name → get_pk_constraint b name schema = Ok (col :: rest) →
     col ≠ "" → post (k col) P) →
  post (MySQL.with_primary_key b schema table_name k) P.
Proof.
  intros Hraise Hk. unfold MySQL.with_primary_key. apply post_bind, post_lift.
  destruct (MySQL.get_primary_key_column b schema table_name) as [o|e] eqn:Hpk;
    [|apply Hraise].
  destruct (str_truthy o) eqn:Ho; simpl; [|apply post_raise, Hraise].
  apply str_truthy_inv in Ho as (col & -> & Hne). simpl.
  apply pk_column_inv in Hpk as (name & rest & -> & Hpk). by eapply Hk.
Qed.

Ltac view_step :=
  first
    [ apply post_try_catch
    | apply post_with_schema; [intros ?err | intros ?e | intros ?schemas ?s ?Hi ?Hs ?Hfm ?Hne]
    | apply post_with_primary_key; [intros ?e | intros ?name ?col ?rest ?Hname ?Hpk ?Hcol]
    | apply post_bind
    | apply post_ret
    | apply post_raise
    | apply post_emit
    | apply post_lift
    | match goal with
      | |- post (if ?c then _ else _) _ => destruct c eqn:?
      | |- post (match ?x with _ => _ end) _ => destruct x eqn:?
      | |- match ?r with _ => _ end => destruct r eqn:?
      end
    | progress unfold MySQL.engine_connect, MySQL.conn_execute_select, MySQL.conn_execute,
        MySQL.conn_commit, MySQL.conn_close, MySQL.handlers
    | progress cbn beta iota ].

Ltac view_all := repeat view_step.

Ltac unfold_views :=
  unfold MySQL.read_table, MySQL.add_record, MySQL.update_record, MySQL.delete_record.

Lemma post_at {A} (m : M A) (P : result A → list event → Prop) (s : State) :
  post m P → ∃ evs, log (m s).2 = log s ++ evs ∧ P (m s).1 evs.
Proof. intros (r & evs & Hm & HP). exists evs. by rewrite Hm. Qed.

(** *** Every request is answered *)

Ltac status_leaf := eexists; split; [reflexivity|]; simpl; solve [repeat constructor].

Lemma mysql_status_post (b : Backend) (data : json) :
  post (MySQL.read_table b data) (λ r _, status_in [200; 400; 500] r)
  ∧ post (MySQL.add_record b data) (λ r _, status_in [200; 400; 500] r)
  ∧ post (MySQL.update_record b data) (λ r _, status_in [200; 400; 404; 500] r)
  ∧ post (MySQL.delete_record b data) (λ r _, status_in [200; 400; 404; 500] r).
Proof. unfold_views. repeat split; view_all; status_leaf. Qed.

(** No exception leaves a view of the MySQL application: whatever the body
    and whatever the database does, [read_table] and [add_record] answer
    with 200, 400 or 500, and [update_record] and [delete_record] with 200,
    400, 404 or 500. *)
Theorem mysql_views_always_answer (b : Backend) (data : json) (st : State) :
  status_in [200; 400; 500] (answer (MySQL.read_table b data st))
  ∧ status_in [200; 400; 500] (answer (MySQL.add_record b data st))
  ∧ status_in [200; 400; 404; 500] (answer (MySQL.update_record b data st))
  ∧ status_in [200; 400; 404; 500] (answer (MySQL.delete_record b data st)).
Proof.
  destruct (mysql_status_post b data) as (Hr & Ha & Hu & Hd). unfold answer.
  destruct (post_at _ _ st Hr) as (? & _ & ?).
  destruct (post_at _ _ st Ha) as (? & _ & ?).
  destruct (post_at _ _ st Hu) as (? & _ & ?).
  destruct (post_at _ _ st Hd) as (? & _ & ?). done.
Qed.

(** *** Connections and statements of a request *)




(** *** What is behind an answer *)

Ltac answer_leaf :=
  simpl; intros resp [= <-] Hst; simpl in Hst;
  try (destruct Hst as [Hst|Hst]); try discriminate Hst.

Ltac is_ok_goal :=
  repeat match goal with
  | H : ?x = Ok _ |- context [is_Ok ?x] => rewrite H
  end; simpl.

Lemma mysql_committed_post (b : Backend) (data : json) :
  post (MySQL.add_record b data) (committed_write b)
  ∧ post (MySQL.update_record b data) (committed_write b)
  ∧ post (MySQL.delete_record b data) (committed_write b).
Proof.
  unfold_views; unfold committed_write.
  repeat split; view_all; answer_leaf; eexists; (split; [reflexivity|]); by is_ok_goal.
Qed.

(** Behind every answer 200 of the MySQL views [add_record], [update_record]
    and [delete_record], and behind every 404 of the last two, there is
    exactly one statement that was executed and committed without an
    exception on a connection that was then closed. *)
Theorem mysql_write_answers_are_committed (b : Backend) (data : json) (st : State) :
  request_trace (MySQL.add_record b data) st (committed_write b)
  ∧ request_trace (MySQL.update_record b data) st (committed_write b)
  ∧ request_trace (MySQL.delete_record b data) st (committed_write b).
Proof.
  destruct (mysql_committed_post b data) as (Ha & Hu & Hd).
  unfold request_trace, trace, answer. repeat split; by apply post_at.
Qed.

Lemma jsonify_inv (b payload : body) : jsonify b = Ok payload → payload = b.
Proof. unfold jsonify. destruct (serializable b); [|done]. by intros [= <-]. Qed.

Lemma jsonify_dict (fields : list (string * field)) : jsonify (BDict fields) = Ok (BDict fields).
Proof. done. Qed.

Lemma mysql_read_answer_post (b : Backend) (data : json) :
  post (MySQL.read_table b data) (read_answer b data).
Proof.
  unfold MySQL.read_table, read_answer. view_all; answer_leaf.
  match goal with
  | H : jsonify _ = Ok _ |- _ => apply jsonify_inv in H as ->
  end.
  match goal with
  | H : MySQL.Table_fresh _ _ _ = Ok ?t |- _ =>
      apply table_fresh_inv in H as (-> & <- & Hrefl); exists t
  end.
  match goal with
  | H : execute_select _ _ = Ok ?res |- _ => destruct res as [columns rows]
  end.
  by exists columns, rows.
Qed.

(** Behind every answer 200 of the MySQL view [read_table] there is one
    select, on the table of the request's name as reflected during the
    request, on a connection that was closed; the body is the list of the
    fetched rows, each as a dict of the result's columns. *)
Theorem mysql_read_answer (b : Backend) (data : json) (st : State) :
  request_trace (MySQL.read_table b data) st (read_answer b data).
Proof.
  unfold request_trace, trace, answer. apply post_at, mysql_read_answer_post.
Qed.

Ltac statement_leaf :=
  simpl; intros stmt Hin;
  repeat (apply elem_of_cons in Hin as [Hin|Hin]); try discriminate Hin;
  try (by apply elem_of_nil in Hin).

Ltac use_inversions :=
  repeat match goal with
  | H : MySQL.Table_fresh _ _ _ = Ok _ |- _ =>
      apply table_fresh_inv in H as (? & ? & ?)
  | H : column _ _ = Ok _ |- _ => apply column_inv in H as (-> & ?)
  | H : values_positional _ = Ok _ |- _ => apply values_positional_inv in H as ->
  end.

Lemma mysql_update_statement_post (b : Backend) (data : json) :
  post (MySQL.update_record b data) (update_statement b data).
Proof.
  unfold MySQL.update_record, update_statement, targets.
  view_all; statement_leaf; injection Hin as ->; use_inversions; subst.
  all: match goal with
       | H : JStr ?name = JStr _ |- _ => injection H as H; subst name
       end.
  all: do 4 eexists; repeat split; try eassumption; try reflexivity.
  all: do 3 eexists; repeat split; try eassumption; try reflexivity.
Qed.

Lemma mysql_delete_statement_post (b : Backend) (data : json) :
  post (MySQL.delete_record b data) (delete_statement b data).
Proof.
  unfold MySQL.delete_record, delete_statement, targets.
  view_all; statement_leaf; injection Hin as ->; use_inversions; subst.
  all: match goal with
       | H : JStr ?name = JStr _ |- _ => injection H as H; subst name
       end.
  all: do 3 eexists; repeat split; try eassumption; try reflexivity.
  all: do 3 eexists; repeat split; try eassumption; try reflexivity.
Qed.

(** The only statement the MySQL view [update_record] sends is an update of
    the table that the request names, in the first schema that has it and
    as reflected during the request; it selects the rows whose first primary
    key column, as the constraint lists it now, equals the request's [pk],
    and sets the request's [update_data].  The statement of [delete_record]
    is the delete on the same table, column and [pk]. *)
Theorem mysql_statement_of_request (b : Backend) (data : json) (st : State) :
  request_trace (MySQL.update_record b data) st (update_statement b data)
  ∧ request_trace (MySQL.delete_record b data) st (delete_statement b data).
Proof.
  unfold request_trace, trace, answer. split; apply post_at.
  - apply mysql_update_statement_post.
  - apply mysql_delete_statement_post.
Qed.

(** *** Validation of the body *)

Lemma any_missing_object (keys : list string) (fields : list (string * json)) :
  MySQL.any_missing keys (JObj fields) = Ok (negb (all_present keys fields)).
Proof.
  induction keys as [|k keys IH]; simpl; [done|].
  case_bool_decide; simpl; [apply IH|done].
Qed.

Lemma invalid_object (k : string) (keys : list string) (fields : list (string * json)) :
  MySQL.invalid (k :: keys) (JObj fields) = Ok (negb (all_present (k :: keys) fields)).
Proof.
  unfold MySQL.invalid. destruct fields as [|f fields]; [done|].
  change (truthy (JObj (f :: fields))) with true. simpl negb. cbn iota.
  apply any_missing_object.
Qed.

(** The MySQL views test an object body for the presence of the keys they
    require and for nothing else: a body without one of them is answered
    with the 400 of the view and nothing is looked up, and a value that is
    [None], empty or zero passes the test. *)
Theorem mysql_validation_is_presence (b : Backend) (fields : list (string * json))
    (st : State) :
  (∀ k keys, MySQL.invalid (k :: keys) (JObj fields)
             = Ok (negb (all_present (k :: keys) fields)))
  ∧ (all_present ["table_name"] fields = false →
     MySQL.read_table b (JObj fields) st
     = (Ok (invalid_json "Invalid JSON format. 'table' must be provided."), st))
  ∧ (all_present ["table_name"; "table_data"] fields = false →
     MySQL.add_record b (JObj fields) st
     = (Ok (invalid_json
              "Invalid JSON format. 'table_name' and 'table_data' must be provided."), st))
  ∧ (all_present ["table_name"; "pk"; "update_data"] fields = false →
     MySQL.update_record b (JObj fields) st
     = (Ok (invalid_json
              "Invalid JSON format. 'table', 'pk', and 'update_data' must be provided."),
        st))
  ∧ (all_present ["table_name"; "pk"] fields = false →
     MySQL.delete_record b (JObj fields) st
     = (Ok (invalid_json "Invalid JSON format. 'table' and 'pk' must be provided."), st)).
Proof.
  split; [intros; apply invalid_object|].
  unfold_views. unfold try_catch, bind, lift.
  repeat split; intros H; by rewrite invalid_object, H.
Qed.

Lemma invalid_falsy (keys : list string) (data : json) :
  truthy data = false → MySQL.invalid keys data = Ok true.
Proof. intros H. unfold MySQL.invalid. by rewrite H. Qed.

Lemma invalid_scalar (k : string) (keys : list string) (data : json) :
  is_scalar data = true → truthy data = true →
  MySQL.invalid (k :: keys) data
  = Raise (Exception "TypeError" [Lit "argument is not iterable"]).
Proof.
  intros Hs Ht. unfold MySQL.invalid. rewrite Ht. by destruct data.
Qed.

(** Bodies that are not objects, in the MySQL application: a body that is
    false in Python ([null], [false], [0], the empty string, list or
    object) is answered with 400 by every view, and a number or [true] that
    is not false with 500; the state is not touched. *)
Theorem mysql_falsy_and_scalar_bodies (b : Backend) (data : json) (st : State) :
  (truthy data = false →
   bad_request (MySQL.read_table b data st) st
   ∧ bad_request (MySQL.add_record b data st) st
   ∧ bad_request (MySQL.update_record b data st) st
   ∧ bad_request (MySQL.delete_record b data st) st)
  ∧ (is_scalar data = true → truthy data = true →
     status_of (MySQL.read_table b data st) = Some 500
     ∧ status_of (MySQL.add_record b data st) = Some 500
     ∧ status_of (MySQL.update_record b data st) = Some 500
     ∧ status_of (MySQL.delete_record b data st) = Some 500
     ∧ (MySQL.read_table b data st).2 = st ∧ (MySQL.add_record b data st).2 = st
     ∧ (MySQL.update_record b data st).2 = st ∧ (MySQL.delete_record b data st).2 = st).
Proof.
  unfold_views. unfold try_catch, bind, lift, status_of. split.
  - intros H. rewrite !(invalid_falsy _ data H). simpl.
    repeat split; by eexists.
  - intros Hs Ht. by rewrite !(invalid_scalar _ _ data Hs Ht).
Qed.

(** *** The primary key column *)

(** [get_primary_key_column] lets an exception of [inspect] through and
    swallows one of the constraint lookup: when the inspector can be made it
    returns the first column of the constraint, and [None] when the
    constraint cannot be read or has no column. *)
Lemma mysql_primary_key_column (b : Backend) (schema name : string) :
  (∀ e, inspect_engine b = Raise e →
        MySQL.get_primary_key_column b schema (JStr name) = Raise e)
  ∧ (inspect_engine b = Ok tt →
     MySQL.get_primary_key_column b schema (JStr name)
     = Ok (match get_pk_constraint b name schema with
           | Ok (col :: _) => Some col
           | _ => None
           end)).
Proof.
  unfold MySQL.get_primary_key_column. split.
  - by intros e ->.
  - intros ->. simpl. by destruct (get_pk_constraint b name schema) as [[|col rest]|e].
Qed.

(** *** The two lookups of a schema *)

Lemma schema_loop_find_schema (b : Backend) (table_name : json) (schemas : list string) :
  inspect_engine b = Ok tt →
  MSSQL.schema_loop b table_name schemas = MySQL.find_schema b table_name schemas.
Proof.
  intros Hi. induction schemas as [|schema rest IH]; simpl; [done|].
  unfold MySQL.table_exists_in_schema. rewrite Hi. simpl.
  destruct (get_table_names b schema) as [tables|e]; simpl; [|done].
  by destruct (name_in table_name tables).
Qed.

(** [fetch_schema_name] of the MSSQL application returns what the lookup of
    the MySQL views finds, and [None] where that lookup fails: when the
    schemas cannot be listed or a table list cannot be read. *)
Theorem lookups_agree (b : Backend) (table_name : json) :
  MSSQL.fetch_schema_name b table_name
  = Ok (match mysql_lookup b table_name with
        | Ok schema_name => schema_name
        | Raise _ => None
        end).
Proof.
  unfold MSSQL.fetch_schema_name, mysql_lookup, MySQL.get_schemas.
  destruct (inspect_engine b) as [[]|e] eqn:Hi; simpl; [|done].
  destruct (get_schema_names b) as [schemas|e]; simpl; [|done].
  rewrite (schema_loop_find_schema b table_name schemas Hi).
  by destruct (MySQL.find_schema b table_name schemas).
Qed.

(** ** The views of the MSSQL application, step by step *)

Lemma sat_lift {A} (r : result A) (Q : result A → list event → Prop) :
  Q r [] → sat (lift r) Q.
Proof. intros HQ s. exists []. simpl. by rewrite app_nil_r. Qed.

Lemma sat_ret {A} (a : A) (Q : result A → list event → Prop) :
  Q (Ok a) [] → sat (ret a) Q.
Proof. apply (sat_lift (Ok a)). Qed.

Lemma sat_emit (ev : event) (Q : result unit → list event → Prop) :
  Q (Ok tt) [ev] → sat (emit ev) Q.
Proof. intros HQ s. by exists [ev]. Qed.

Lemma sat_bind {A B} (m : M A) (k : A → M B) (Q : result B → list event → Prop) :
  sat m (λ r evs,
    match r with
    | Ok a => sat (k a) (λ r' evs', Q r' (evs ++ evs'))
    | Raise e => Q (Raise e) evs
    end) →
  sat (bind m k) Q.
Proof.
  intros H s. destruct (H s) as (evs & Hmd & Hlog & HQ). unfold bind.
  destruct (m s) as [[a|e] s']; simpl in *.
  - destruct (HQ s') as (evs' & Hmd' & Hlog' & HQ'). exists (evs ++ evs').
    split; [by etrans|]. split; [|done]. by rewrite Hlog', Hlog, app_assoc.
  - by exists evs.
Qed.

Lemma sat_try_catch {A} (m : M A) (h : exn → M A) (Q : result A → list event → Prop) :
  sat m (λ r evs,
    match r with
    | Ok a => Q (Ok a) evs
    | Raise e => sat (h e) (λ r' evs', Q r' (evs ++ evs'))
    end) →
  sat (try_catch m h) Q.
Proof.
  intros H s. destruct (H s) as (evs & Hmd & Hlog & HQ). unfold try_catch.
  destruct (m s) as [[a|e] s']; simpl in *.
  - by exists evs.
  - destruct (HQ s') as (evs' & Hmd' & Hlog' & HQ'). exists (evs ++ evs').
    split; [by etrans|]. split; [|done]. by rewrite Hlog', Hlog, app_assoc.
Qed.

(** [Table] on the shared registry adds no event and keeps what the
    registry holds. *)
Lemma sat_table_shared (b : Backend) (table_name : json) (schema : string)
    (Q : result Table → list event → Prop) :
  (∀ r, Q r []) → sat (MSSQL.Table_shared b table_name schema) Q.
Proof.
  intros HQ s. exists []. unfold MSSQL.Table_shared, Table_new.
  destruct (as_str table_name) as [name|e]; simpl.
  - destruct (metadata s !! _get_table_key name schema) as [t|] eqn:Hk; simpl.
    + by rewrite app_nil_r.
    + destruct (reflect_table b schema name) as [[cols pk]|e]; simpl;
        rewrite app_nil_r; repeat split; try done.
      by apply insert_subseteq.
  - by rewrite app_nil_r.
Qed.

Lemma jsonify_error_body (e : exn) :
  jsonify (MSSQL.error_body e) = Ok (MSSQL.error_body e).
Proof. done. Qed.

Lemma jsonify_message_body (msg : string) :
  jsonify (MSSQL.message_body msg) = Ok (MSSQL.message_body msg).
Proof. done. Qed.

Lemma jsonify_raise_inv (b : body) (e : exn) :
  jsonify b = Raise e →
  serializable b = false ∧ e = Exception "TypeError" [Lit "Object is not JSON serializable"].
Proof. unfold jsonify. destruct (serializable b); [done|]. by intros [= <-]. Qed.

Ltac mssql_step :=
  first
    [ apply sat_try_catch
    | apply sat_table_shared; intros ?r
    | progress rewrite ?jsonify_error_body, ?jsonify_message_body
    | apply sat_bind
    | apply sat_ret
    | apply sat_emit
    | apply sat_lift
    | match goal with
      | |- sat (if ?c then _ else _) _ => destruct c eqn:?
      | |- sat (match ?x with _ => _ end) _ => destruct x eqn:?
      | |- match ?r with _ => _ end => destruct r eqn:?
      end
    | progress unfold MSSQL.session_execute_select, MSSQL.session_execute,
        MSSQL.session_commit, MSSQL.finish, MSSQL.read_data_from_mssql,
        MSSQL.add_record_to_table, MSSQL.update_record_in_table,
        MSSQL.delete_record_from_table
    | progress cbn beta iota ].

Ltac mssql_all := repeat mssql_step.

Ltac unfold_mssql_views :=
  unfold MSSQL.read_table, MSSQL.add_record, MSSQL.update_record, MSSQL.delete_record.

Lemma sat_at {A} (m : M A) (Q : result A → list event → Prop) (s : State) :
  sat m Q → run_trace m s Q.
Proof. intros H. destruct (H s) as (evs & _ & Hlog & HQ). by exists evs. Qed.

(** *** The helpers *)

Ltac outcome_leaf :=
  simpl;
  first
    [ left; split; [reflexivity|]; eexists; split; [reflexivity|]; by is_ok_goal
    | right; eexists; split; [reflexivity|];
      first
        [ left; reflexivity
        | right; left; eexists; split; [reflexivity|]; eassumption
        | right; right; eexists; split; [reflexivity|]; split; [by is_ok_goal|reflexivity] ] ].

Lemma mssql_write_helpers_sat (b : Backend) (schema : string) (table_name pk data : json) :
  sat (MSSQL.add_record_to_table b schema table_name data)
    (write_outcome b "Record added successfully")
  ∧ sat (MSSQL.update_record_in_table b schema table_name pk data)
      (write_outcome b "Record updated successfully")
  ∧ sat (MSSQL.delete_record_from_table b schema table_name pk)
      (write_outcome b "Record deleted successfully").
Proof. unfold write_outcome. repeat split; mssql_all; outcome_leaf. Qed.

(** The helpers of the MSSQL application that write never raise.  They
    return the message of success after one statement that was executed and
    committed without an exception, and otherwise a dict with the ["error"]
    of the step that raised; after an execution that raised nothing is
    committed. *)
Theorem mssql_write_helpers_outcome (b : Backend) (schema : string)
    (table_name pk data : json) (st : State) :
  run_trace (MSSQL.add_record_to_table b schema table_name data) st
    (write_outcome b "Record added successfully")
  ∧ run_trace (MSSQL.update_record_in_table b schema table_name pk data) st
      (write_outcome b "Record updated successfully")
  ∧ run_trace (MSSQL.delete_record_from_table b schema table_name pk) st
      (write_outcome b "Record deleted successfully").
Proof.
  destruct (mssql_write_helpers_sat b schema table_name pk data) as (Ha & Hu & Hd).
  repeat split; by apply sat_at.
Qed.

Lemma mssql_read_helper_sat (b : Backend) (schema : string) (table_name : json) :
  sat (MSSQL.read_data_from_mssql b schema table_name) (read_outcome b).
Proof.
  unfold read_outcome. mssql_all; simpl.
  - left. destruct a0 as [columns rows]. by eexists _, columns, rows.
  - right. eexists. split; [reflexivity|]. right. by eexists.
  - right. eexists. split; [reflexivity|]. by left.
Qed.

(** [read_data_from_mssql] never raises: it returns the fetched rows, each
    as a dict of the result's columns, after one select, or a dict with the
    ["error"] of the reflection or of the select. *)
Theorem mssql_read_helper_outcome (b : Backend) (schema : string) (table_name : json)
    (st : State) :
  run_trace (MSSQL.read_data_from_mssql b schema table_name) st (read_outcome b).
Proof. apply sat_at, mssql_read_helper_sat. Qed.

(** *** The answers of the views *)

Ltac fetch_raised Hf :=
  match goal with
  | H : MSSQL.fetch_schema_name _ ?t = Raise _ |- _ =>
      destruct (Hf t) as [? ?]; congruence
  end.

Ltac unserializable_leaf :=
  right;
  match goal with
  | H : jsonify _ = Raise _, Hs : execute_select _ _ = Ok ?res |- _ =>
      apply jsonify_raise_inv in H as [H ->]; destruct res as [columns rows];
      by eexists _, columns, rows, _
  end.

Lemma mssql_status_sat (b : Backend) (fields : list (string * json)) :
  sat (MSSQL.read_table b (JObj fields)) (read_answers b)
  ∧ sat (MSSQL.add_record b (JObj fields)) (λ r _, status_in [200; 400; 404; 500] r)
  ∧ sat (MSSQL.update_record b (JObj fields)) (λ r _, status_in [200; 400; 404; 500] r)
  ∧ sat (MSSQL.delete_record b (JObj fields)) (λ r _, status_in [200; 400; 404; 500] r).
Proof.
  unfold_mssql_views. unfold read_answers, unserializable_rows.
  pose proof (mssql_fetch_never_raises b) as Hf.
  repeat split; mssql_all;
    first [ status_leaf | left; status_leaf | fetch_raised Hf | unserializable_leaf ].
Qed.

Lemma mssql_non_object (b : Backend) (data : json) (st : State) :
  is_object data = false →
  ∃ msg, let error := Raise (Exception "AttributeError" msg) in
    MSSQL.read_table b data st = (error, st)
    ∧ MSSQL.add_record b data st = (error, st)
    ∧ MSSQL.update_record b data st = (error, st)
    ∧ MSSQL.delete_record b data st = (error, st).
Proof. destruct data; try done; intros _; eexists; simpl; repeat split. Qed.

(** The MSSQL views [add_record], [update_record] and [delete_record] answer
    every body that is a JSON object, with 200, 400, 404 or 500, whatever the
    database does.  [read_table] answers such a body too, unless the select
    returned a value that cannot be serialized: then its last [jsonify],
    which is outside any [try], raises [TypeError].  On a body that is not an
    object every view raises [AttributeError] before anything is looked
    up. *)
Theorem mssql_views_answer_objects_only (b : Backend) (data : json) (st : State) :
  (∀ fields, data = JObj fields →
     run_trace (MSSQL.read_table b data) st (read_answers b)
     ∧ status_in [200; 400; 404; 500] (answer (MSSQL.add_record b data st))
     ∧ status_in [200; 400; 404; 500] (answer (MSSQL.update_record b data st))
     ∧ status_in [200; 400; 404; 500] (answer (MSSQL.delete_record b data st)))
  ∧ (is_object data = false →
     ∃ msg, let error := Raise (Exception "AttributeError" msg) in
       MSSQL.read_table b data st = (error, st)
       ∧ MSSQL.add_record b data st = (error, st)
       ∧ MSSQL.update_record b data st = (error, st)
       ∧ MSSQL.delete_record b data st = (error, st)).
Proof.
  split; [|apply mssql_non_object].
  intros fields ->. destruct (mssql_status_sat b fields) as (Hr & Ha & Hu & Hd).
  unfold answer. split; [by apply sat_at|].
  destruct (Ha st) as (? & _ & _ & ?).
  destruct (Hu st) as (? & _ & _ & ?). destruct (Hd st) as (? & _ & _ & ?). done.
Qed.

Ltac split_truthy :=
  unfold all_truthy; simpl;
  repeat match goal with
         | H : _ = true |- _ => revert H
         | H : _ = false |- _ => revert H
         end;
  repeat match goal with
         | |- context [truthy ?x] => destruct (truthy x)
         end.

Ltac by_status :=
  unfold has_status;
  split;
  [ intros (resp & Hresp & Hst);
    first [ discriminate Hresp
          | injection Hresp as <-; simpl in Hst;
            first [ done | discriminate Hst | (split; done) ] ]
  | intros;
    first [ done
          | match goal with H : _ ∧ _ |- _ => destruct H; first [done | discriminate] end
          | eexists; split; [reflexivity | done] ] ].

Ltac missing_leaf := unfold answers_400_iff; split_truthy; simpl; intros; by_status.

Lemma mssql_missing_sat (b : Backend) (fields : list (string * json)) :
  sat (MSSQL.read_table b (JObj fields)) (answers_400_iff ["table_name"] fields)
  ∧ sat (MSSQL.add_record b (JObj fields))
      (answers_400_iff ["table_name"; "table_data"] fields)
  ∧ sat (MSSQL.update_record b (JObj fields))
      (answers_400_iff ["table_name"; "pk"; "update_data"] fields)
  ∧ sat (MSSQL.delete_record b (JObj fields)) (answers_400_iff ["table_name"; "pk"] fields).
Proof.
  unfold_mssql_views. repeat split; mssql_all; missing_leaf.
Qed.

(** A view of the MSSQL application answers an object body with 400 exactly
    when one of the fields it requires is absent or false in Python
    ([None], [0], [0.0], [False], the empty string, list or dict). *)
Theorem mssql_400_iff_field_missing (b : Backend) (fields : list (string * json))
    (st : State) :
  run_trace (MSSQL.read_table b (JObj fields)) st (answers_400_iff ["table_name"] fields)
  ∧ run_trace (MSSQL.add_record b (JObj fields)) st
      (answers_400_iff ["table_name"; "table_data"] fields)
  ∧ run_trace (MSSQL.update_record b (JObj fields)) st
      (answers_400_iff ["table_name"; "pk"; "update_data"] fields)
  ∧ run_trace (MSSQL.delete_record b (JObj fields)) st
      (answers_400_iff ["table_name"; "pk"] fields).
Proof.
  destruct (mssql_missing_sat b fields) as (Hr & Ha & Hu & Hd).
  repeat split; by apply sat_at.
Qed.

(** *** The registry *)

Lemma mssql_views_sat (b : Backend) (data : json) :
  sat (MSSQL.read_table b data) (λ _ _, True)
  ∧ sat (MSSQL.add_record b data) (λ _ _, True)
  ∧ sat (MSSQL.update_record b data) (λ _ _, True)
  ∧ sat (MSSQL.delete_record b data) (λ _ _, True).
Proof. unfold_mssql_views. repeat split; mssql_all; done. Qed.

(** No request to the MSSQL application removes or replaces a table of the
    registry [self.metadata]: a table that is registered stays registered
    with the same columns and primary key for as long as the application
    runs; and a request only adds to the trace. *)
Theorem mssql_registry_only_grows (b : Backend) (data : json) (st : State) :
  registry_kept st (MSSQL.read_table b data st).2
  ∧ registry_kept st (MSSQL.add_record b data st).2
  ∧ registry_kept st (MSSQL.update_record b data st).2
  ∧ registry_kept st (MSSQL.delete_record b data st).2.
Proof.
  assert (∀ view : M response, sat view (λ _ _, True) → registry_kept st (view st).2) as H.
  { intros view Hsat. destruct (Hsat st) as (evs & Hmd & Hlog & _). split.
    - intros key t Hk. by eapply lookup_weaken.
    - rewrite Hlog. by apply prefix_app_r. }
  destruct (mssql_views_sat b data) as (Hr & Ha & Hu & Hd).
  repeat split; by apply H.
Qed.

(** What [Table] returns from the shared registry it returns again, for the
    same name and schema, from the state it leaves, whatever the database has
    become. *)
Theorem table_shared_is_cached (b b' : Backend) (table_name : json) (schema : string)
    (s s' : State) (t : Table) :
  MSSQL.Table_shared b table_name schema s = (Ok t, s') →
  MSSQL.Table_shared b' table_name schema s' = (Ok t, s').
Proof.
  unfold MSSQL.Table_shared, Table_new.
  destruct (as_str table_name) as [name|e]; simpl; [|done].
  destruct (metadata s !! _get_table_key name schema) as [t0|] eqn:Hk; simpl.
  - intros [= <- <-]. simpl. rewrite Hk. done.
  - destruct (reflect_table b schema name) as [[cols pk]|e]; simpl; [|done].
    intros [= <- <-]. simpl. by rewrite lookup_insert_eq.
Qed.

Lemma table_shared_is_cached_witness :
  MSSQL.Table_shared (company_db "emp_id" (Ok 1)) (JStr "Employees") "hr"
    (MSSQL.Table_shared (company_db "id" (Ok 1)) (JStr "Employees") "hr" start).2
  = (Ok (employees "id"),
     (MSSQL.Table_shared (company_db "id" (Ok 1)) (JStr "Employees") "hr" start).2).
Proof.
  apply (table_shared_is_cached (company_db "id" (Ok 1)) (company_db "emp_id" (Ok 1))
           (JStr "Employees") "hr" start).
  reflexivity.
Defined.

(** *** Not found *)

Ltac decide_404 :=
  split_truthy;
  repeat match goal with
         | |- context [str_truthy ?x] => destruct (str_truthy x)
         end;
  simpl; intros; by_status.

Ltac not_found_leaf Hf :=
  first
    [ fetch_raised Hf
    | eexists; split; [reflexivity|]; decide_404
    | match goal with
      | |- context [MSSQL.fetch_schema_name _ ?t] =>
          let o := fresh "o" in
          let Ho := fresh "Ho" in
          destruct (Hf t) as [o Ho];
          exists o; split; [exact Ho|]; decide_404
      end ].

Lemma mssql_not_found_sat (b : Backend) (fields : list (string * json)) :
  sat (MSSQL.read_table b (JObj fields)) (answers_404_iff b ["table_name"] fields)
  ∧ sat (MSSQL.add_record b (JObj fields))
      (answers_404_iff b ["table_name"; "table_data"] fields)
  ∧ sat (MSSQL.update_record b (JObj fields))
      (answers_404_iff b ["table_name"; "pk"; "update_data"] fields)
  ∧ sat (MSSQL.delete_record b (JObj fields))
      (answers_404_iff b ["table_name"; "pk"] fields).
Proof.
  unfold_mssql_views. unfold answers_404_iff. pose proof (mssql_fetch_never_raises b) as Hf.
  repeat split; mssql_all; not_found_leaf Hf.
Qed.

(** A view of the MSSQL application answers an object body with 404 exactly
    when every field it requires is given and true and [fetch_schema_name]
    finds no schema, or finds the table in a schema whose name is empty. *)
Theorem mssql_404_iff_unresolved (b : Backend) (fields : list (string * json))
    (st : State) :
  run_trace (MSSQL.read_table b (JObj fields)) st (answers_404_iff b ["table_name"] fields)
  ∧ run_trace (MSSQL.add_record b (JObj fields)) st
      (answers_404_iff b ["table_name"; "table_data"] fields)
  ∧ run_trace (MSSQL.update_record b (JObj fields)) st
      (answers_404_iff b ["table_name"; "pk"; "update_data"] fields)
  ∧ run_trace (MSSQL.delete_record b (JObj fields)) st
      (answers_404_iff b ["table_name"; "pk"] fields).
Proof.
  destruct (mssql_not_found_sat b fields) as (Hr & Ha & Hu & Hd).
  repeat split; by apply sat_at.
Qed.

(** Rows with a value that cannot be serialized: the MSSQL view [read_table]
    raises after its select, the MySQL view answers 500 with its connection
    closed. *)
Lemma unserializable_rows_example :
  answer (MSSQL.read_table blob_db read_employees start)
  = Raise (Exception "TypeError" [Lit "Object is not JSON serializable"])
  ∧ trace (MSSQL.read_table blob_db read_employees start)
    = [EvSessionExecute (Select (employees "id"))]
  ∧ status_of (MySQL.read_table blob_db read_employees start) = Some 500
  ∧ trace (MySQL.read_table blob_db read_employees start)
    = [EvConnect; EvExecute (Select (employees "id")); EvClose].
Proof. by vm_compute. Qed.

(** ** Rows as dicts *)

Lemma dict_lookup_set_eq {V} (k : string) (v : V) (d : list (string * V)) :
  dict_lookup k (dict_set k v d) = Some v.
Proof.
  induction d as [|[k' v'] d IH]; simpl.
  - by rewrite String.eqb_refl.
  - destruct (String.eqb k' k) eqn:Hk; simpl; by rewrite Hk.
Qed.

Lemma dict_lookup_set_ne {V} (k k' : string) (v : V) (d : list (string * V)) :
  k ≠ k' → dict_lookup k' (dict_set k v d) = dict_lookup k' d.
Proof.
  intros Hne. induction d as [|[k0 v0] d IH]; simpl.
  - by apply String.eqb_neq in Hne as ->.
  - destruct (String.eqb k0 k) eqn:Hk; simpl.
    + apply String.eqb_eq in Hk as ->. by apply String.eqb_neq in Hne as ->.
    + by rewrite IH.
Qed.

Lemma dict_fold_other {V} (k : string) (pairs d : list (string * V)) :
  k ∉ pairs.*1 →
  dict_lookup k (fold_left (λ d kv, dict_set kv.1 kv.2 d) pairs d) = dict_lookup k d.
Proof.
  revert d. induction pairs as [|[k0 v0] pairs IH]; intros d Hk; simpl; [done|].
  simpl in Hk. apply not_elem_of_cons in Hk as [Hne Hk].
  rewrite IH by done. by apply dict_lookup_set_ne.
Qed.

Lemma dict_fold_lookup {V} (k : string) (v : V) (pairs d : list (string * V)) :
  NoDup pairs.*1 → (k, v) ∈ pairs →
  dict_lookup k (fold_left (λ d kv, dict_set kv.1 kv.2 d) pairs d) = Some v.
Proof.
  revert d. induction pairs as [|[k0 v0] pairs IH]; intros d Hnd Hin; simpl.
  - by apply elem_of_nil in Hin.
  - simpl in Hnd. apply NoDup_cons in Hnd as [Hk0 Hnd].
    apply elem_of_cons in Hin as [[= -> ->]|Hin].
    + rewrite dict_fold_other by done. apply dict_lookup_set_eq.
    + by apply IH.
Qed.

Lemma combine_lookup {A B} (l : list A) (l' : list B) (j : nat) (x : A) (y : B) :
  l !! j = Some x → l' !! j = Some y → (x, y) ∈ combine l l'.
Proof.
  revert l' j. induction l as [|a l IH]; intros [|b l'] [|j]; simpl; try done.
  - intros [= ->] [= ->]. constructor.
  - intros Hx Hy. constructor. by eapply IH.
Qed.

Lemma combine_keys {A B} (l : list A) (l' : list B) (x : A) :
  x ∈ (combine l l').*1 → x ∈ l.
Proof.
  revert l'. induction l as [|a l IH]; intros [|b l']; simpl; try by intros ?%elem_of_nil.
  intros [->|Hin]%elem_of_cons; [constructor|]. constructor. by eapply IH.
Qed.

Lemma combine_keys_NoDup {A B} (l : list A) (l' : list B) :
  NoDup l → NoDup (combine l l').*1.
Proof.
  revert l'. induction l as [|a l IH]; intros [|b l'] Hnd; simpl; try constructor.
  - apply NoDup_cons in Hnd as [Ha _]. intros Hin. by apply Ha, (combine_keys l l').
  - apply NoDup_cons in Hnd as [_ Hnd]. by apply IH.
Qed.

(** The rows of an answer: for a result whose column names are distinct,
    the dict at the place of a fetched row gives, for each column, the value
    the row has in that column. *)
Theorem row_dicts_lookup (columns : list string) (rows : list (list cell))
    (i j : nat) (row : list cell) (c : string) (v : cell) :
  NoDup columns →
  rows !! i = Some row → columns !! j = Some c → row !! j = Some v →
  length (row_dicts columns rows) = length rows
  ∧ ∃ d, row_dicts columns rows !! i = Some d ∧ dict_lookup c d = Some v.
Proof.
  intros Hnd Hrow Hc Hv. unfold row_dicts. split; [apply length_map|].
  exists (py_dict (combine columns row)). split.
  - change (map ?f rows) with (f <$> rows). by rewrite list_lookup_fmap, Hrow.
  - apply dict_fold_lookup.
    + by apply combine_keys_NoDup.
    + by eapply combine_lookup.
Qed.

Lemma row_dicts_lookup_witness :
  ∃ d, row_dicts ["id"; "name"]
         [[Json (JInt 1); Json (JStr "Ann")]; [Json (JInt 2); Json (JStr "Bob")]] !! 1%nat
       = Some d
       ∧ dict_lookup "name" d = Some (Json (JStr "Bob")).
Proof.
  refine (proj2 (row_dicts_lookup ["id"; "name"]
                   [[Json (JInt 1); Json (JStr "Ann")]; [Json (JInt 2); Json (JStr "Bob")]]
                   1 1 [Json (JInt 2); Json (JStr "Bob")] "name" (Json (JStr "Bob"))
                   _ eq_refl eq_refl eq_refl)).
  apply (bool_decide_unpack _). reflexivity.
Defined.

(** ** Connections that stay open *)






(** The MySQL views [update_record] and [delete_record] decide between 200
    and 404 by the row count alone: behind a statement that was executed,
    committed and whose connection was closed, the answer is 404 when the
    row count is 0 and 200 for any other count, also a negative one. *)
Theorem mysql_rowcount_decides (b : Backend) (data : json) (st : State) :
  request_trace (MySQL.update_record b data) st (rowcount_decides b)
  ∧ request_trace (MySQL.delete_record b data) st (rowcount_decides b).
Proof.
  unfold request_trace, trace, answer. split; apply post_at.
  - apply mysql_update_post.
  - apply mysql_delete_post.
Qed.

(** ** The registry across requests *)

Lemma executed_app (l1 l2 : list event) :
  executed (l1 ++ l2) = executed l1 ++ executed l2.
Proof. unfold executed. induction l1 as [|ev l1 IH]; simpl; [done|]. by destruct (is_execution ev); simpl; rewrite IH. Qed.

Lemma finish_state (final_status : body) (s : State) :
  (MSSQL.finish final_status s).2 = s.
Proof.
  unfold MSSQL.finish, bind, lift, ret.
  by destruct (body_has "error" final_status), (jsonify final_status).
Qed.

Lemma bind_finish_state (m : M body) (s : State) :
  (bind m MSSQL.finish s).2 = (m s).2.
Proof.
  unfold bind. destruct (m s) as [[a|e] s']; simpl; [apply finish_state|done].
Qed.

Lemma table_shared_registers (b : Backend) (name schema : string) (s s' : State) (t : Table) :
  MSSQL.Table_shared b (JStr name) schema s = (Ok t, s') →
  metadata s' !! _get_table_key name schema = Some t ∧ log s' = log s.
Proof.
  unfold MSSQL.Table_shared, Table_new. simpl.
  destruct (metadata s !! _get_table_key name schema) as [t0|] eqn:Hk; simpl.
  - by intros [= <- <-].
  - destruct (reflect_table b schema name) as [[cols pk]|e]; simpl; [|done].
    intros [= <- <-]. simpl. by rewrite lookup_insert_eq.
Qed.

(** The views go on, with the schema that [fetch_schema_name] finds on the
    database of the request, to their helper and to the end of the view. *)
Section Resolved.
Variable b : Backend.
Variable fields : list (string * json).
Variable name schema : string.
Hypothesis Hres : resolves b fields name schema.

Lemma resolved_truthy : truthy (dict_get "table_name" fields) = true.
Proof.
  destruct Hres as (-> & Hname & _). simpl. by apply String.eqb_neq in Hname as ->.
Qed.

Lemma mssql_read_resolved (st : State) :
  MSSQL.read_table b (JObj fields) st
  = bind (MSSQL.read_data_from_mssql b schema (JStr name)) MSSQL.finish st.
Proof.
  unfold MSSQL.read_table. unfold bind at 1, lift at 1. simpl. rewrite resolved_truthy.
  destruct Hres as (-> & _ & Hf & Hs). simpl. unfold bind at 1, lift at 1.
  rewrite Hf. simpl. by apply String.eqb_neq in Hs as ->.
Qed.

Lemma mssql_add_resolved (st : State) :
  truthy (dict_get "table_data" fields) = true →
  MSSQL.add_record b (JObj fields) st
  = bind (MSSQL.add_record_to_table b schema (JStr name) (dict_get "table_data" fields))
      MSSQL.finish st.
Proof.
  intros Hd. unfold MSSQL.add_record. unfold bind at 1, lift at 1. simpl.
  unfold bind at 1, lift at 1. simpl. rewrite resolved_truthy, Hd.
  destruct Hres as (-> & _ & Hf & Hs). simpl. unfold bind at 1, lift at 1.
  rewrite Hf. simpl. by apply String.eqb_neq in Hs as ->.
Qed.

Lemma mssql_update_resolved (st : State) :
  truthy (dict_get "pk" fields) = true →
  truthy (dict_get "update_data" fields) = true →
  MSSQL.update_record b (JObj fields) st
  = bind (MSSQL.update_record_in_table b schema (JStr name) (dict_get "pk" fields)
            (dict_get "update_data" fields))
      MSSQL.finish st.
Proof.
  intros Hp Hd. unfold MSSQL.update_record. unfold bind at 1, lift at 1. simpl.
  unfold bind at 1, lift at 1. simpl. unfold bind at 1, lift at 1. simpl.
  rewrite resolved_truthy, Hp, Hd.
  destruct Hres as (-> & _ & Hf & Hs). simpl. unfold bind at 1, lift at 1.
  rewrite Hf. simpl. by apply String.eqb_neq in Hs as ->.
Qed.

Lemma mssql_delete_resolved (st : State) :
  truthy (dict_get "pk" fields) = true →
  MSSQL.delete_record b (JObj fields) st
  = bind (MSSQL.delete_record_from_table b schema (JStr name) (dict_get "pk" fields))
      MSSQL.finish st.
Proof.
  intros Hp. unfold MSSQL.delete_record. unfold bind at 1, lift at 1. simpl.
  unfold bind at 1, lift at 1. simpl. rewrite resolved_truthy, Hp.
  destruct Hres as (-> & _ & Hf & Hs). simpl. unfold bind at 1, lift at 1.
  rewrite Hf. simpl. by apply String.eqb_neq in Hs as ->.
Qed.

End Resolved.

(** The helpers run on the table that [Table] hands them. *)
Section OnTable.
Variable b : Backend.
Variable schema : string.
Variable table_name : json.
Variable st st1 : State.
Variable t : Table.
Hypothesis Htable : MSSQL.Table_shared b table_name schema st = (Ok t, st1).

Lemma read_helper_on :
  metadata (MSSQL.read_data_from_mssql b schema table_name st).2 = metadata st1
  ∧ executed (log (MSSQL.read_data_from_mssql b schema table_name st).2)
    = executed (log st1) ++ [EvSessionExecute (Select t)].
Proof.
  unfold MSSQL.read_data_from_mssql, try_catch, bind. rewrite Htable.
  unfold MSSQL.session_execute_select, bind, emit, lift, ret. simpl.
  destruct (execute_select b (Select t)); simpl; by rewrite executed_app.
Qed.

Lemma add_helper_on (data : json) :
  values_kwargs data = Ok data →
  metadata (MSSQL.add_record_to_table b schema table_name data st).2 = metadata st1
  ∧ executed (log (MSSQL.add_record_to_table b schema table_name data st).2)
    = executed (log st1) ++ [EvSessionExecute (Insert t data)].
Proof.
  intros Hv. unfold MSSQL.add_record_to_table, try_catch, bind. rewrite Htable.
  unfold lift at 1. rewrite Hv.
  unfold MSSQL.session_execute, MSSQL.session_commit, bind, emit, lift, ret. simpl.
  destruct (execute_dml b (Insert t data)); simpl; [|by rewrite executed_app].
  destruct (commit b); simpl; rewrite !executed_app; unfold executed; simpl;
    by rewrite ?app_nil_r.
Qed.

Lemma update_helper_on (pk data : json) (col : string) :
  MSSQL.first_pk_column t = Ok col → values_kwargs data = Ok data →
  metadata (MSSQL.update_record_in_table b schema table_name pk data st).2 = metadata st1
  ∧ executed (log (MSSQL.update_record_in_table b schema table_name pk data st).2)
    = executed (log st1) ++ [EvSessionExecute (Update t col pk data)].
Proof.
  intros Hc Hv. unfold MSSQL.update_record_in_table, try_catch, bind. rewrite Htable.
  unfold lift at 1. rewrite Hc. unfold lift at 1. rewrite Hv.
  unfold MSSQL.session_execute, MSSQL.session_commit, bind, emit, lift, ret. simpl.
  destruct (execute_dml b (Update t col pk data)); simpl; [|by rewrite executed_app].
  destruct (commit b); simpl; rewrite !executed_app; unfold executed; simpl;
    by rewrite ?app_nil_r.
Qed.

Lemma delete_helper_on (pk : json) (col : string) :
  MSSQL.first_pk_column t = Ok col →
  metadata (MSSQL.delete_record_from_table b schema table_name pk st).2 = metadata st1
  ∧ executed (log (MSSQL.delete_record_from_table b schema table_name pk st).2)
    = executed (log st1) ++ [EvSessionExecute (Delete t col pk)].
Proof.
  intros Hc. unfold MSSQL.delete_record_from_table, try_catch, bind. rewrite Htable.
  unfold lift at 1. rewrite Hc.
  unfold MSSQL.session_execute, MSSQL.session_commit, bind, emit, lift, ret. simpl.
  destruct (execute_dml b (Delete t col pk)); simpl; [|by rewrite executed_app].
  destruct (commit b); simpl; rewrite !executed_app; unfold executed; simpl;
    by rewrite ?app_nil_r.
Qed.

End OnTable.

(** The views run on the table that [Table] hands their helper, and leave
    the registry as [Table] left it. *)
Section ViewOnTable.
Variable b : Backend.
Variable fields : list (string * json).
Variable name schema : string.
Variable st st1 : State.
Variable t : Table.
Hypothesis Hres : resolves b fields name schema.
Hypothesis Htable : MSSQL.Table_shared b (JStr name) schema st = (Ok t, st1).

Lemma mssql_read_sends :
  metadata (MSSQL.read_table b (JObj fields) st).2 = metadata st1
  ∧ sends (Select t) st (MSSQL.read_table b (JObj fields) st).
Proof.
  unfold sends, trace. rewrite (mssql_read_resolved b fields name schema Hres).
  rewrite bind_finish_state.
  destruct (read_helper_on b schema (JStr name) st st1 t Htable) as [Hm He].
  destruct (table_shared_registers b name schema st st1 t Htable) as [_ Hl].
  by rewrite Hm, He, Hl.
Qed.

Lemma mssql_add_sends :
  payload_ok (dict_get "table_data" fields) →
  metadata (MSSQL.add_record b (JObj fields) st).2 = metadata st1
  ∧ sends (Insert t (dict_get "table_data" fields)) st (MSSQL.add_record b (JObj fields) st).
Proof.
  intros [Ht Hv]. unfold sends, trace.
  rewrite (mssql_add_resolved b fields name schema Hres st Ht), bind_finish_state.
  destruct (add_helper_on b schema (JStr name) st st1 t Htable _ Hv) as [Hm He].
  destruct (table_shared_registers b name schema st st1 t Htable) as [_ Hl].
  by rewrite Hm, He, Hl.
Qed.

Lemma mssql_update_sends (col : string) :
  truthy (dict_get "pk" fields) = true → payload_ok (dict_get "update_data" fields) →
  MSSQL.first_pk_column t = Ok col →
  metadata (MSSQL.update_record b (JObj fields) st).2 = metadata st1
  ∧ sends (Update t col (dict_get "pk" fields) (dict_get "update_data" fields)) st
      (MSSQL.update_record b (JObj fields) st).
Proof.
  intros Hp [Ht Hv] Hc. unfold sends, trace.
  rewrite (mssql_update_resolved b fields name schema Hres st Hp Ht), bind_finish_state.
  destruct (update_helper_on b schema (JStr name) st st1 t Htable
              (dict_get "pk" fields) _ col Hc Hv) as [Hm He].
  destruct (table_shared_registers b name schema st st1 t Htable) as [_ Hl].
  by rewrite Hm, He, Hl.
Qed.

Lemma mssql_delete_sends (col : string) :
  truthy (dict_get "pk" fields) = true → MSSQL.first_pk_column t = Ok col →
  metadata (MSSQL.delete_record b (JObj fields) st).2 = metadata st1
  ∧ sends (Delete t col (dict_get "pk" fields)) st (MSSQL.delete_record b (JObj fields) st).
Proof.
  intros Hp Hc. unfold sends, trace.
  rewrite (mssql_delete_resolved b fields name schema Hres st Hp), bind_finish_state.
  destruct (delete_helper_on b schema (JStr name) st st1 t Htable
              (dict_get "pk" fields) col Hc) as [Hm He].
  destruct (table_shared_registers b name schema st st1 t Htable) as [_ Hl].
  by rewrite Hm, He, Hl.
Qed.

End ViewOnTable.

(** A later request, on whatever the database has become, runs on the table
    object that an earlier request was handed. *)
Lemma mssql_later_request_reuses (b b' : Backend) (fields : list (string * json))
    (name schema : string) (st st1 : State) (t : Table) :
  resolves b fields name schema → resolves b' fields name schema →
  MSSQL.Table_shared b (JStr name) schema st = (Ok t, st1) →
  let st' := (MSSQL.read_table b (JObj fields) st).2 in
  MSSQL.Table_shared b' (JStr name) schema st' = (Ok t, st')
  ∧ sends (Select t) st' (MSSQL.read_table b' (JObj fields) st')
  ∧ (∀ col, truthy (dict_get "pk" fields) = true →
            payload_ok (dict_get "update_data" fields) →
            MSSQL.first_pk_column t = Ok col →
            sends (Update t col (dict_get "pk" fields) (dict_get "update_data" fields)) st'
              (MSSQL.update_record b' (JObj fields) st')).
Proof.
  intros Hres Hres' Htable st'.
  destruct (mssql_read_sends b fields name schema st st1 t Hres Htable) as [Hm _].
  destruct (table_shared_registers b name schema st st1 t Htable) as [Hk _].
  assert (MSSQL.Table_shared b' (JStr name) schema st' = (Ok t, st')) as Htable'.
  { apply table_shared_registered. subst st'. by rewrite Hm. }
  split; [done|]. split.
  - by eapply mssql_read_sends.
  - intros col Hp Hd Hc. by eapply mssql_update_sends.
Qed.

Lemma table_shared_reflects (b : Backend) (name schema : string) (s : State) :
  metadata s !! _get_table_key name schema = None →
  match reflect_table b schema name with
  | Ok cp =>
      let t := mkTable name schema cp.1 cp.2 in
      ∃ s', MSSQL.Table_shared b (JStr name) schema s = (Ok t, s')
            ∧ metadata s' !! _get_table_key name schema = Some t
            ∧ metadata s ⊆ metadata s' ∧ log s' = log s
  | Raise e => MSSQL.Table_shared b (JStr name) schema s = (Raise e, s)
  end.
Proof.
  intros Hk. rewrite (table_shared_new b name schema s Hk).
  destruct (reflect_table b schema name) as [[cols pk]|e]; [|done].
  eexists. split; [reflexivity|]. simpl. split; [by rewrite lookup_insert_eq|].
  split; [by apply insert_subseteq|done].
Qed.

Lemma mssql_registry_kept (b : Backend) (data : json) (st : State) :
  registry_kept st (MSSQL.read_table b data st).2
  ∧ registry_kept st (MSSQL.add_record b data st).2
  ∧ registry_kept st (MSSQL.update_record b data st).2
  ∧ registry_kept st (MSSQL.delete_record b data st).2.
Proof.
  assert (∀ view : M response, sat view (λ _ _, True) → registry_kept st (view st).2) as H.
  { intros view Hsat. destruct (Hsat st) as (evs & Hmd & Hlog & _). split.
    - intros key t Hk. by eapply lookup_weaken.
    - rewrite Hlog. by apply prefix_app_r. }
  destruct (mssql_views_sat b data) as (Hr & Ha & Hu & Hd).
  repeat split; by apply H.
Qed.

(** C5, as the code has it.  The views of the MySQL application answer from
    the database of the request alone: the result and the events of a
    request are the same in every state, the registry is not touched, and a
    [Table] is what reflection says at that moment.  The MSSQL application
    looks the schema up on the database of each request, but keeps the
    registry [self.metadata] for its lifetime: [Table] returns a registered
    table as registered, whatever the database says now, and reflects and
    registers one that is not; no view removes or replaces a registered
    table; every view sends its statement on the table [Table] handed it; and
    a later request, on whatever the database has become, runs on the table
    object of an earlier one. *)
Theorem metadata_lifetime (b : Backend) :
  (∀ data,
     per_request (MySQL.read_table b data) ∧ per_request (MySQL.add_record b data)
     ∧ per_request (MySQL.update_record b data) ∧ per_request (MySQL.delete_record b data))
  ∧ (∀ name schema,
       MySQL.Table_fresh b (JStr name) schema
       = rbind (reflect_table b schema name) (λ cp, Ok (mkTable name schema cp.1 cp.2)))
  ∧ (∀ name schema s t,
       metadata s !! _get_table_key name schema = Some t →
       MSSQL.Table_shared b (JStr name) schema s = (Ok t, s))
  ∧ (∀ name schema s,
       metadata s !! _get_table_key name schema = None →
       match reflect_table b schema name with
       | Ok cp =>
           let t := mkTable name schema cp.1 cp.2 in
           ∃ s', MSSQL.Table_shared b (JStr name) schema s = (Ok t, s')
                 ∧ metadata s' !! _get_table_key name schema = Some t
                 ∧ metadata s ⊆ metadata s' ∧ log s' = log s
       | Raise e => MSSQL.Table_shared b (JStr name) schema s = (Raise e, s)
       end)
  ∧ (∀ data st,
       registry_kept st (MSSQL.read_table b data st).2
       ∧ registry_kept st (MSSQL.add_record b data st).2
       ∧ registry_kept st (MSSQL.update_record b data st).2
       ∧ registry_kept st (MSSQL.delete_record b data st).2)
  ∧ (∀ fields st,
       in_no_schema b (dict_get "table_name" fields) →
       provided ["table_name"] fields →
       MSSQL.read_table b (JObj fields) st
       = (Ok (MSSQL.schema_not_found (dict_get "table_name" fields)), st))
  ∧ (∀ fields name schema st st1 t,
       resolves b fields name schema →
       MSSQL.Table_shared b (JStr name) schema st = (Ok t, st1) →
       (metadata (MSSQL.read_table b (JObj fields) st).2 = metadata st1
        ∧ sends (Select t) st (MSSQL.read_table b (JObj fields) st))
       ∧ (payload_ok (dict_get "table_data" fields) →
          metadata (MSSQL.add_record b (JObj fields) st).2 = metadata st1
          ∧ sends (Insert t (dict_get "table_data" fields)) st
              (MSSQL.add_record b (JObj fields) st))
       ∧ (∀ col, truthy (dict_get "pk" fields) = true →
                 payload_ok (dict_get "update_data" fields) →
                 MSSQL.first_pk_column t = Ok col →
                 metadata (MSSQL.update_record b (JObj fields) st).2 = metadata st1
                 ∧ sends (Update t col (dict_get "pk" fields)
                            (dict_get "update_data" fields)) st
                     (MSSQL.update_record b (JObj fields) st))
       ∧ (∀ col, truthy (dict_get "pk" fields) = true →
                 MSSQL.first_pk_column t = Ok col →
                 metadata (MSSQL.delete_record b (JObj fields) st).2 = metadata st1
                 ∧ sends (Delete t col (dict_get "pk" fields)) st
                     (MSSQL.delete_record b (JObj fields) st)))
  ∧ (∀ b' fields name schema st st1 t,
       resolves b fields name schema → resolves b' fields name schema →
       MSSQL.Table_shared b (JStr name) schema st = (Ok t, st1) →
       let st' := (MSSQL.read_table b (JObj fields) st).2 in
       MSSQL.Table_shared b' (JStr name) schema st' = (Ok t, st')
       ∧ sends (Select t) st' (MSSQL.read_table b' (JObj fields) st')
       ∧ (∀ col, truthy (dict_get "pk" fields) = true →
                 payload_ok (dict_get "update_data" fields) →
                 MSSQL.first_pk_column t = Ok col →
                 sends (Update t col (dict_get "pk" fields)
                          (dict_get "update_data" fields)) st'
                   (MSSQL.update_record b' (JObj fields) st'))).
Proof.
  split; [apply mysql_views_per_request|].
  split; [apply table_fresh_reflects|].
  split; [apply table_shared_registered|].
  split; [apply table_shared_reflects|].
  split; [apply mssql_registry_kept|].
  split; [intros fields st Hno Hp; by apply mssql_read_unknown|].
  split.
  - intros fields name schema st st1 t Hres Htable. repeat split.
    + by eapply mssql_read_sends.
    + by eapply mssql_read_sends.
    + by eapply mssql_add_sends.
    + by eapply mssql_add_sends.
    + by eapply mssql_update_sends.
    + by eapply mssql_update_sends.
    + by eapply mssql_delete_sends.
    + by eapply mssql_delete_sends.
  - intros b'. apply mssql_later_request_reuses.
Qed.

Lemma employees_resolves (pk_col : string) (written : result Z) :
  resolves (company_db pk_col written) [("table_name", JStr "Employees")] "Employees" "hr".
Proof. repeat split; done. Qed.

Lemma metadata_lifetime_witness :
  let before := company_db "id" (Ok 1) in
  let after := company_db "emp_id" (Ok 1) in
  let st' := (MSSQL.read_table before read_employees start).2 in
  reflect_table after "hr" "Employees" = Ok (["emp_id"; "name"], ["emp_id"])
  ∧ sends (Select (employees "id")) st' (MSSQL.read_table after read_employees st').
Proof.
  intros before after st'. split; [reflexivity|].
  destruct (metadata_lifetime before) as (_ & _ & _ & _ & _ & _ & _ & Hlater).
  refine (proj1 (proj2 (Hlater after [("table_name", JStr "Employees")] "Employees" "hr"
                          start _ (employees "id") _ _ _))).
  - apply employees_resolves.
  - apply employees_resolves.
  - reflexivity.
Defined.

(** The MSSQL application starts on a database whose primary key of
    [Employees] is [id] and serves an update.  The key is then renamed to
    [emp_id].  The next update still runs on the table object of the first
    request, with the key [id]; the MySQL application uses [emp_id]. *)
Lemma mssql_stale_table_metadata :
  let before := company_db "id" (Ok 1) in
  let after := company_db "emp_id" (Ok 1) in
  let values := JObj [("name", JStr "Anna")] in
  MSSQL._setup_database before = Ok start
  ∧ reflect_table after "hr" "Employees" = Ok (["emp_id"; "name"], ["emp_id"])
  ∧ executed (trace (MSSQL.update_record after update_ann
                       (MSSQL.update_record before update_ann start).2))
    = [EvSessionExecute (Update (employees "id") "id" (JInt 1) values);
       EvSessionExecute (Update (employees "id") "id" (JInt 1) values)]
  ∧ executed (trace (MySQL.update_record after update_ann
                       (MySQL.update_record before update_ann start).2))
    = [EvExecute (Update (employees "id") "id" (JInt 1) values);
       EvExecute (Update (employees "emp_id") "emp_id" (JInt 1) values)]
  ∧ ¬ per_request (MSSQL.update_record after update_ann).
Proof.
  repeat split; try by vm_compute.
  intros (r & evs & Hm & _).
  pose proof (f_equal trace (Hm start)) as H1.
  pose proof (f_equal trace
    (Hm (MSSQL.update_record (company_db "id" (Ok 1)) update_ann start).2)) as H2.
  unfold trace in H1, H2. simpl log in H1, H2. rewrite <- H1 in H2.
  vm_compute in H2. discriminate H2.
Qed.
